(** * Job-posting ingestion pipeline: scrapers, snapshot writer, orchestrator

    A shallow embedding of the Python scripts under [script/]:
    - [scrape_zapply_github.py]    (module [Zapply]),
    - [scrape_zapply_swe_2026.py]  (module [Swe2026]),
    - [scrape_github_jobs.py]      (module [Simplify]),
    - the SQLite snapshot writers  (module [Store]),
    - [master_scraper.py]          (module [Master]),
    over the string, float and date primitives they use (modules
    [PyStr], [PyFloat] and [Freshness]).

    Conventions.
    - A Python [str] is a [string] holding its UTF-8 bytes.  Substring
      tests on code points and on UTF-8 bytes agree, so [x in s] is
      byte-level containment.  [str.lower], [str.strip], [\d], [\s] and
      [int] work on the code points, read off the bytes by [chars], with
      the white space and the decimal digits of Unicode 14.0.
    - A Python number that is an [int] or a finite [float] is a rational
      [Q]; float arithmetic rounds it to the nearest binary64 value.
    - The interpreter is CPython 3.11 or later: [int] refuses a numeral
      of more than 4300 digits, [timedelta] is the one of [_datetime].
    - [None] is [None]; a raised exception is the [Raises] outcome.
    - [datetime.now()] is an explicit argument: microseconds elapsed
      since 0001-01-01T00:00:00, the smallest [datetime]. *)

From Stdlib Require Import ZArith QArith Qround Qpower Qabs Lqa.
From Stdlib Require Import Ascii String List Bool Lia.
From stdpp Require Import base option list gmap strings.

Local Open Scope string_scope.
Local Open Scope Z_scope.
Local Open Scope list_scope.

(* ================================================================== *)
(** ** Python outcomes *)

Inductive outcome (A : Type) : Type :=
| Returns (a : A)
| Raises.
Arguments Returns {A} a.
Arguments Raises {A}.

Definition obind {A B} (m : outcome A) (k : A -> outcome B) : outcome B :=
  match m with
  | Returns a => k a
  | Raises => Raises
  end.

Notation "'do' x <- m ; k" := (obind m (fun x => k))
  (at level 10, x name, m at level 100, k at level 200).

(* ================================================================== *)
(** ** Python string primitives *)

Module PyStr.

Definition code (c : ascii) : N := N_of_ascii c.

(** A character of a [str]: its code point and the UTF-8 bytes that
    spell it. *)
Definition char : Type := N * string.

(** The characters of a [str], read off its bytes.  A byte that starts
    no UTF-8 sequence (a [str] has none) is kept as a character of its
    own, numbered like a lone surrogate. *)
Fixpoint chars (s : string) : list char :=
  match s with
  | EmptyString => []
  | String b0 s0 =>
      let stray := ((56320 + code b0)%N, String b0 EmptyString) in
      if (code b0 <? 128)%N then (code b0, String b0 EmptyString) :: chars s0
      else if (code b0 <? 192)%N then stray :: chars s0
      else
        match s0 with
        | EmptyString => stray :: chars s0
        | String b1 s1 =>
            if (code b0 <? 224)%N then
              (((code b0 - 192) * 64 + (code b1 - 128))%N,
               String b0 (String b1 EmptyString)) :: chars s1
            else
              match s1 with
              | EmptyString => stray :: chars s0
              | String b2 s2 =>
                  if (code b0 <? 240)%N then
                    (((code b0 - 224) * 4096 + (code b1 - 128) * 64
                      + (code b2 - 128))%N,
                     String b0 (String b1 (String b2 EmptyString))) :: chars s2
                  else
                    match s2 with
                    | EmptyString => stray :: chars s0
                    | String b3 s3 =>
                        (((code b0 - 240) * 262144 + (code b1 - 128) * 4096
                          + (code b2 - 128) * 64 + (code b3 - 128))%N,
                         String b0 (String b1 (String b2 (String b3 EmptyString))))
                        :: chars s3
                    end
              end
        end
  end.

(** The [str] made of the characters [cs]. *)
Fixpoint text (cs : list char) : string :=
  match cs with
  | [] => EmptyString
  | c :: cs' => snd c +:+ text cs'
  end.

(** The code points of a [str]: what a pattern is matched against. *)
Definition code_points (s : string) : list N := List.map fst (chars s).

(** [c.lower()].  Besides the ASCII capitals, two characters have a
    lower case with an ASCII letter in it: U+0130 becomes "i" and
    U+0307, U+212A becomes "k".  Every other character stands here for
    its own lower case: that one is again outside ASCII and is neither
    a decimal digit nor white space, and the scripts ask of lower-cased
    text only whether an ASCII word occurs in it and where the time
    pattern matches. *)
Definition lower_char (c : char) : list char :=
  if ((65 <=? fst c) && (fst c <=? 90))%N then
    [((fst c + 32)%N, String (ascii_of_N (fst c + 32)) EmptyString)]
  else if (fst c =? 304)%N then
    [(105%N, "i"); (775%N, String (ascii_of_N 204) (String (ascii_of_N 135) EmptyString))]
  else if (fst c =? 8490)%N then [(107%N, "k")]
  else [c].

(** [s.lower()] *)
Definition lower (s : string) : string :=
  text (List.flat_map lower_char (chars s)).

(** [c.isspace()], which is also the class [\s] of a [str] pattern. *)
Definition is_space (c : N) : bool :=
  (((9 <=? c) && (c <=? 13)) || ((28 <=? c) && (c <=? 32))
   || (c =? 133) || (c =? 160) || (c =? 5760)
   || ((8192 <=? c) && (c <=? 8202))
   || (c =? 8232) || (c =? 8233) || (c =? 8239) || (c =? 8287)
   || (c =? 12288))%N.

(** The zero of every run of ten decimal digits (Unicode 14.0, general
    category Nd); the digits of a run follow their zero in order. *)
Definition decimal_zeros : list N :=
  [48; 1632; 1776; 1984; 2406; 2534; 2662; 2790; 2918; 3046; 3174; 3302;
   3430; 3558; 3664; 3792; 3872; 4160; 4240; 6112; 6160; 6470; 6608;
   6784; 6800; 6992; 7088; 7232; 7248; 42528; 43216; 43264; 43472; 43504;
   43600; 44016; 65296; 66720; 68912; 69734; 69872; 69942; 70096; 70384;
   70736; 70864; 71248; 71360; 71472; 71904; 72016; 72784; 73040; 73120;
   92768; 92864; 93008; 120782; 120792; 120802; 120812; 120822; 123200;
   123632; 125264; 130032]%N.

(** The value of a decimal digit; [None] for any other character. *)
Definition decimal (c : N) : option Z :=
  match List.find (fun z => (z <=? c) && (c <? z + 10))%N decimal_zeros with
  | Some z => Some (Z.of_N (c - z))
  | None => None
  end.

(** [c.isdecimal()], which is also the class [\d] of a [str] pattern. *)
Definition is_digit (c : N) : bool :=
  match decimal c with Some _ => true | None => false end.

Fixpoint lstrip_chars (cs : list char) : list char :=
  match cs with
  | [] => []
  | c :: cs' => if is_space (fst c) then lstrip_chars cs' else cs
  end.

Fixpoint rstrip_chars (cs : list char) : list char :=
  match cs with
  | [] => []
  | c :: cs' =>
      match rstrip_chars cs' with
      | [] => if is_space (fst c) then [] else [c]
      | r => c :: r
      end
  end.

(** [s.strip()] *)
Definition strip (s : string) : string :=
  text (rstrip_chars (lstrip_chars (chars s))).

(** [s.startswith(p)] *)
Fixpoint startswith (p s : string) : bool :=
  match p, s with
  | EmptyString, _ => true
  | String _ _, EmptyString => false
  | String a p', String b s' => Ascii.eqb a b && startswith p' s'
  end.

(** [sub in s] *)
Fixpoint contains (sub s : string) : bool :=
  startswith sub s ||
  match s with
  | EmptyString => false
  | String _ s' => contains sub s'
  end.

(** [len(s)]: the number of code points, that is, of bytes that are
    not UTF-8 continuation bytes [10xxxxxx]. *)
Definition is_continuation (c : ascii) : bool :=
  ((128 <=? code c) && (code c <=? 191))%N.

Fixpoint len (s : string) : nat :=
  match s with
  | EmptyString => 0%nat
  | String c s' => if is_continuation c then len s' else S (len s')
  end.

(** [s.split(sep)] for a one-character separator *)
Fixpoint split (sep : ascii) (s : string) : list string :=
  match s with
  | EmptyString => [EmptyString]
  | String c s' =>
      if Ascii.eqb c sep then EmptyString :: split sep s'
      else match split sep s' with
           | [] => [String c EmptyString]
           | w :: ws => String c w :: ws
           end
  end.

(** [any(p(x) for x in xs)] *)
Definition any {A} (p : A -> bool) (xs : list A) : bool := existsb p xs.

(** The relation behind [sub in s]: [s] splits as [l ++ sub ++ r]. *)
Definition Substring (sub s : string) : Prop :=
  exists l r, s = l +:+ sub +:+ r.

End PyStr.

(* ================================================================== *)
(** ** Python floats

    A finite [float] is the rational it stands for. *)

Module PyFloat.

Local Open Scope Q_scope.

(** The whole number nearest to [q >= 0], a tie going to the even one. *)
Definition round_half_even (q : Q) : Z :=
  let f := Qfloor q in
  match Qcompare (q - inject_Z f) (1 # 2) with
  | Lt => f
  | Gt => (f + 1)%Z
  | Eq => if Z.even f then f else (f + 1)%Z
  end.

(** The [e] with [2**e <= q < 2**(e+1)], for [q > 0]. *)
Definition binade (q : Q) : Z :=
  let e := (Z.log2 (Qnum q) - Z.log2 (Zpos (Qden q)))%Z in
  if Qle_bool (2 ^ e) q then e else (e - 1)%Z.

(** The spacing of the floats around [q > 0]: 53 significant bits,
    and no exponent below that of the smallest normal float. *)
Definition ulp (q : Q) : Q := 2 ^ (Z.max (binade q) (-1022) - 52).

(** The float nearest to [q >= 0], a tie going to the even
    significand (IEEE 754 binary64, round-half-to-even); a result of
    [2**1024] or more stands for an overflow. *)
Definition round_double (q : Q) : Q :=
  if Qle_bool q 0 then 0
  else Qred (inject_Z (round_half_even (q / ulp q)) * ulp q).

(** [float(n)] for an [int] [n >= 0]: [OverflowError] when [n] is too
    large. *)
Definition float_of_int (n : Z) : outcome Q :=
  let f := round_double (inject_Z n) in
  if Qle_bool (2 ^ 1024) f then Raises else Returns f.

(** [x / y] and [x * y] on floats, for [x >= 0] and [y > 0]. *)
Definition float_div (x y : Q) : Q := round_double (x / y).
Definition float_mul (x y : Q) : Q := round_double (x * y).

End PyFloat.

(* ================================================================== *)
(** ** Freshness: [parse_time_ago] and [calculate_freshness_score]

    The two functions have the same text in [scrape_zapply_github.py]
    and in [scrape_zapply_swe_2026.py]. *)

Module Freshness.
Import PyStr PyFloat.

(** The alternatives of the group [(h|d|w|mo|m)]. *)
Inductive time_unit := UH | UD | UW | UMo | UM.

Definition unit_text (u : time_unit) : string :=
  match u with
  | UH => "h" | UD => "d" | UW => "w" | UMo => "mo" | UM => "m"
  end.

(** Alternatives in the order the pattern lists them. *)
Definition unit_alternatives : list time_unit := [UH; UD; UW; UMo; UM].

(** Greedy [\d+]: the longest run of digits and what follows it. *)
Fixpoint take_digits (s : list N) : list N * list N :=
  match s with
  | [] => ([], [])
  | c :: s' =>
      if is_digit c
      then let '(ds, r) := take_digits s' in (c :: ds, r)
      else ([], s)
  end.

(** Greedy [\s*]. *)
Fixpoint skip_spaces (s : list N) : list N :=
  match s with
  | [] => []
  | c :: s' => if is_space c then skip_spaces s' else s
  end.

(** The literal [p] comes next in [s]. *)
Fixpoint literal (p s : list N) : bool :=
  match p, s with
  | [], _ => true
  | _ :: _, [] => false
  | a :: p', b :: s' => (a =? b)%N && literal p' s'
  end.

(** One alternative [u] followed by [\s*ago]. *)
Definition match_unit_ago (r : list N) (u : time_unit) : bool :=
  literal (code_points (unit_text u)) r
  && literal (code_points "ago")
       (skip_spaces (List.skipn (length (code_points (unit_text u))) r)).

(** The pattern [(\d+)\s*(h|d|w|mo|m)\s*ago] anchored at the start of
    [s]; the two groups on success.  Giving back a digit or a space
    cannot help the rest of the pattern, so only the greedy choices
    are tried. *)
Definition match_here (s : list N) : option (list N * time_unit) :=
  let '(ds, r) := take_digits s in
  match ds with
  | [] => None
  | _ => match List.find (match_unit_ago (skip_spaces r)) unit_alternatives with
         | Some u => Some (ds, u)
         | None => None
         end
  end.

(** [re.search]: the leftmost position where the pattern matches. *)
Fixpoint re_search (s : list N) : option (list N * time_unit) :=
  match match_here s with
  | Some m => Some m
  | None => match s with
            | [] => None
            | _ :: s' => re_search s'
            end
  end.

(** The number a run of decimal digits writes. *)
Definition digit_value (c : N) : Z := default 0 (decimal c).

Fixpoint int_acc (acc : Z) (ds : list N) : Z :=
  match ds with
  | [] => acc
  | c :: ds' => int_acc (10 * acc + digit_value c) ds'
  end.

(** [sys.get_int_max_str_digits()], as the interpreter starts
    (CPython 3.11 and later). *)
Definition int_max_str_digits : nat := 4300.

(** [int(ds)] for a run of decimal digits: [ValueError] when there are
    more digits than the limit, leading zeros counted. *)
Definition int (ds : list N) : outcome Z :=
  if (int_max_str_digits <? length ds)%nat then Raises
  else Returns (int_acc 0 ds).

(** The [if unit == ...] chain.  Its final [else] is never taken, the
    group matching these five texts only.  [value / 24.0] is a float
    division, after [value] has been made a float. *)
Definition days_of (value : Z) (u : time_unit) : outcome Q :=
  match u with
  | UH => do f <- float_of_int value; Returns (float_div f 24)
  | UD => Returns (inject_Z value)
  | UW => Returns (inject_Z (value * 7))
  | UMo | UM => Returns (inject_Z (value * 30))
  end.

(** A calendar date as a day number, 0 being 0001-01-01;
    [strftime('%Y-%m-%d')] prints it. *)
Definition date := Z.

Definition us_per_day : Z := 86400000000.

(** [timedelta(days=d)] in microseconds, for [d >= 0].  The whole days
    are converted exactly.  The fraction of a day is multiplied by the
    microseconds of a day as a float; of the product the whole part is
    kept, and its fraction is rounded, a tie going to the even total.
    [OverflowError] beyond 999999999 days. *)
Definition timedelta_days (d : Q) : outcome Z :=
  let intpart := Qfloor d in
  let fracpart := (d - inject_Z intpart)%Q in
  let sum := intpart * us_per_day in
  let x :=
    if Qeq_bool fracpart 0 then sum
    else
      let dnum := float_mul (inject_Z us_per_day) fracpart in
      let y := sum + Qfloor dnum in
      let leftover_us := (dnum - inject_Z (Qfloor dnum))%Q in
      match Qcompare leftover_us (1 # 2) with
      | Lt => y
      | Gt => y + 1
      | Eq => if Z.odd y then y + 1 else y
      end in
  if 999999999 <? x / us_per_day then Raises else Returns x.

(** [datetime.now() - delta] for [delta >= 0]: [OverflowError] when
    the result would lie before the smallest [datetime]. *)
Definition datetime_sub (now delta : Z) : outcome Z :=
  if now - delta <? 0 then Raises else Returns (now - delta).

Definition strftime_date (t : Z) : date := t / us_per_day.

Definition parse_time_ago (now : Z) (time_str : string)
  : outcome (option date * option Q) :=
  let time_str := strip (lower time_str) in
  match re_search (code_points time_str) with
  | None => Returns (None, None)
  | Some (ds, u) =>
      do value <- int ds;
      do days_ago <- days_of value u;
      do delta <- timedelta_days days_ago;
      do date_posted <- datetime_sub now delta;
      Returns (Some (strftime_date date_posted), Some days_ago)
  end.

Definition Qltb (x y : Q) : bool := negb (Qle_bool y x).

Definition calculate_freshness_score (days_ago : option Q) : Z :=
  match days_ago with
  | None => 50
  | Some days_ago =>
      if Qltb days_ago 1 then 100
      else if Qltb days_ago 7 then 90
      else if Qltb days_ago 14 then 75
      else if Qltb days_ago 30 then 60
      else if Qltb days_ago 60 then 40
      else 20
  end.

End Freshness.

(* ================================================================== *)
(** ** [scrape_zapply_github.py]: the Zapply New-Grad-Jobs parser *)

Module Zapply.
Import PyStr Freshness.

(** The [if 'intern' in role_lower ... else] chain. *)
Definition job_type_of (role : string) : string :=
  let role_lower := lower role in
  if contains "intern" role_lower then "internship"
  else if contains "co-op" role_lower || contains "coop" role_lower then "internship"
  else if contains "contract" role_lower then "contract"
  else "fulltime".

Definition faang_companies : list string :=
  ["google"; "amazon"; "apple"; "meta"; "facebook"; "microsoft"; "netflix"].

Definition is_faang_of (current_company : string) : bool :=
  any (fun comp => contains comp (lower current_company)) faang_companies.

Definition tier1_companies : list string :=
  ["tesla"; "nvidia"; "spacex"; "stripe"; "coinbase";
   "uber"; "lyft"; "airbnb"; "databricks"; "openai";
   "anthropic"; "snap"; "reddit"; "dropbox"; "twitch"; "x"; "twitter"].

Definition is_tier1_of (current_company : string) : bool :=
  any (fun comp => contains comp (lower current_company)) tier1_companies.


(** One dictionary appended to [jobs]. *)
Record job := {
  company : string;
  title : string;
  location : string;
  job_url : string;
  site : string;
  source : string;
  posted_ago : string;
  days_ago : option Q;
  date_posted : date;
  freshness_score : Z;
  is_fresh : bool;
  level : string;
  category : string;
  job_type : string;
  is_faang : bool;
  is_tier1 : bool;
  description : string;
  collected_at : Z
}.

(** The variables the line loop updates. *)
Record scan_state := {
  current_company : string;
  in_table : bool;
  table_header_seen : bool;
  jobs : list job
}.

Definition initial_state : scan_state :=
  {| current_company := "Unknown"; in_table := false;
     table_header_seen := false; jobs := [] |}.

Definition is_empty (s : string) : bool :=
  match s with EmptyString => true | _ => false end.

(** [cells[i]] with the value used when the index is out of range *)
Definition cell (cells : list string) (i : nat) (default : string) : string :=
  List.nth i cells default.

Section Scan.
(** [group(1).strip()] of the company-heading pattern
    [####\s+[...]?\s*\*\*([A-Za-z0-9\s&\.]+)\*\*], when it matches. *)
Variable heading_company : string -> option string.
(** [group(1)] of [\[.*?\]\((https?://[^\)]+)\)], when it matches. *)
Variable markdown_link : string -> option string.
(** [datetime.now()] during the run. *)
Variable now : Z.

(** The body of [if '|' in line and in_table and table_header_seen],
    from [role = cells[0].strip()] on; [None] is the [continue] of
    a role that is too short. *)
Definition make_job (current_company : string) (cells : list string)
  : outcome (option job) :=
  let role := strip (cell cells 0 "") in
  let location := strip (cell cells 1 "") in
  let posted := if (2 <? length cells)%nat then strip (cell cells 2 "") else "Unknown" in
  let level := if (3 <? length cells)%nat then strip (cell cells 3 "") else "Entry-Level" in
  let category :=
    if (4 <? length cells)%nat then strip (cell cells 4 "") else "Software Engineering" in
  let apply_cell :=
    if (5 <? length cells)%nat then strip (cell cells 5 "") else strip (List.last cells "") in
  let apply_url := markdown_link apply_cell in
  if is_empty role || (len role <? 2)%nat then Returns None
  else
    do parsed <- parse_time_ago now posted;
    let date_posted := fst parsed in
    let days_ago := snd parsed in
    let freshness_score := calculate_freshness_score days_ago in
    let is_fresh :=
      match days_ago with Some d => Qltb d 7 | None => false end in
    let job_type := job_type_of role in
    let is_faang := is_faang_of current_company in
    let is_tier1 := is_tier1_of current_company in
    Returns (Some
      {| company := current_company;
         title := role;
         location := location;
         job_url := match apply_url with
                    | Some u => u
                    | None => "https://github.com/zapplyjobs/New-Grad-Jobs"
                    end;
         site := "zapply";
         source := "Zapply-GitHub";
         posted_ago := posted;
         days_ago := days_ago;
         date_posted := match date_posted with
                        | Some d => d
                        | None => strftime_date now
                        end;
         freshness_score := freshness_score;
         is_fresh := is_fresh;
         level := level;
         category := category;
         job_type := job_type;
         is_faang := is_faang;
         is_tier1 := is_tier1;
         description :=
           level +:+ " position at " +:+ current_company +:+ " in "
           +:+ category +:+ ". " +:+ "Posted " +:+ posted +:+ ". "
           +:+ (if is_faang then "FAANG company. " else "")
           +:+ (if is_tier1 && negb is_faang
                then "Top-tier tech company. " else "");
         collected_at := now |}).

(** One iteration of [for i, line in enumerate(lines)]. *)
Definition step (st : scan_state) (line : string) : outcome scan_state :=
  if startswith "####" (strip line) && contains "**" line then
    match heading_company line with
    | Some name =>
        Returns {| current_company := name; in_table := false;
                   table_header_seen := false; jobs := jobs st |}
    | None => Returns st
    end
  else if contains "|" line && contains "---" line then
    Returns {| current_company := current_company st; in_table := true;
               table_header_seen := true; jobs := jobs st |}
  else if contains "|" line && negb (in_table st)
          && (contains "Role" line || contains "Company" line) then
    Returns st
  else if contains "|" line && in_table st && table_header_seen st then
    let cells := List.map strip (split "|" line) in
    let cells := List.filter (fun c => negb (is_empty c)) cells in
    if (length cells <? 4)%nat then
      if is_empty (strip line) || negb (startswith "|" (strip line)) then
        Returns {| current_company := current_company st; in_table := false;
                   table_header_seen := false; jobs := jobs st |}
      else Returns st
    else
      do made <- make_job (current_company st) cells;
      match made with
      | None => Returns st
      | Some j =>
          Returns {| current_company := current_company st;
                     in_table := in_table st;
                     table_header_seen := table_header_seen st;
                     jobs := (jobs st ++ [j])%list |}
      end
  else Returns st.

Fixpoint scan (st : scan_state) (lines : list string) : outcome scan_state :=
  match lines with
  | [] => Returns st
  | line :: rest => do st' <- step st line; scan st' rest
  end.

(** [scrape_zapply_github()] up to [return df], as a function of the
    outcome of [requests.get(url, timeout=30)] with
    [raise_for_status()].  [None] is the three [return None]; the
    statistics printed before [return df] are output only. *)
Definition scrape_zapply_github (response : outcome string) : option (list job) :=
  match response with
  | Raises => None
  | Returns markdown =>
      match scan initial_state (split "010" markdown) with
      | Raises => None
      | Returns st =>
          if (length (jobs st) =? 0)%nat then None else Some (jobs st)
      end
  end.

End Scan.

End Zapply.

(* ================================================================== *)
(** ** [scrape_zapply_swe_2026.py]: the Zapply SWE-2026 parser *)

Module Swe2026.
Import PyStr Freshness.

Definition faang_companies : list string :=
  ["amazon"; "meta"; "facebook"; "apple"; "netflix"; "google"].

Definition is_faang_of (company : string) : bool :=
  any (fun fc => contains fc (lower company)) faang_companies.

Record job := {
  company : string;
  title : string;
  location : string;
  (** [date_posted_parsed or posted_date]: a date, or the raw cell *)
  date_posted : date + string;
  posted_time_ago : string;
  days_ago : option Q;
  freshness_score : Z;
  url : string;
  source : string;
  is_faang : bool;
  is_archived : bool;
  scraped_at : Z
}.

Definition part (parts : list string) (i : nat) : string :=
  if (i <? length parts)%nat then List.nth i parts "" else "Unknown".

Section Scan.
(** [group(1)] of [\[.*?\]\((.*?)\)], when it matches. *)
Variable markdown_link : string -> option string.
Variable now : Z.

(** The inner [try] block; [Raises] is caught by its
    [except Exception: continue]. *)
Definition make_job (archived : bool) (parts : list string) : outcome job :=
  let company := part parts 1 in
  let role := part parts 2 in
  let location := part parts 3 in
  let posted_date := part parts 4 in
  let apply_link :=
    if (5 <? length parts)%nat then
      match markdown_link (List.nth 5 parts "") with
      | Some l => l
      | None => ""
      end
    else "" in
  do parsed <- parse_time_ago now posted_date;
  let days_ago := snd parsed in
  Returns
    {| company := company;
       title := role;
       location := location;
       date_posted := match fst parsed with
                      | Some d => inl d
                      | None => inr posted_date
                      end;
       posted_time_ago := posted_date;
       days_ago := days_ago;
       freshness_score := calculate_freshness_score days_ago;
       url := match apply_link with
              | EmptyString =>
                  "https://github.com/zapplyjobs/New-Grad-Software-Engineering-Jobs-2026"
              | _ => apply_link
              end;
       source := "zapply_swe_2026";
       is_faang := is_faang_of company;
       is_archived := archived;
       scraped_at := now |}.

(** One iteration of the line loop over [(current_section == "archived", jobs)]. *)
Definition step (st : bool * list job) (line : string) : bool * list job :=
  let '(archived, jobs) := st in
  if contains "archived" (lower line) && contains "jobs" (lower line) then
    (true, jobs)
  else if contains "|" line && negb (startswith "|--" (strip line)) then
    let parts := List.map strip (split "|" line) in
    if (length parts <? 4)%nat || contains "Company" line || contains "Role" line
    then st
    else match make_job archived parts with
         | Returns j => (archived, (jobs ++ [j])%list)
         | Raises => st
         end
  else st.

Definition scrape_zapply_swe_2026 (response : outcome string) : option (list job) :=
  match response with
  | Raises => None
  | Returns markdown =>
      match snd (List.fold_left step (split "010" markdown) (false, [])) with
      | [] => None
      | jobs => Some jobs
      end
  end.
End Scan.

End Swe2026.

(* ================================================================== *)
(** ** [scrape_github_jobs.py]: the SimplifyJobs parser *)

Module Simplify.
Import PyStr.

(** A [<td>] as the loop reads it: [get_text(strip=True)] and the
    [href] of its first [<a>], if any. *)
Record td := { text : string; href : option string }.

(** A table is its [find_all('tr')] rows, each row its [find_all('td')]. *)
Definition table := list (list td).

Definition passport := "🛂".
Definition us_flag := "🇺🇸".
Definition lock := "🔒".
Definition fire := "🔥".
Definition graduate := "🎓".

(** [s.replace(old, '')] for a non-empty [old]; [skip] counts the
    bytes of a match still to be dropped. *)
Fixpoint remove_from (old : string) (skip : nat) (s : string) : string :=
  match s with
  | EmptyString => EmptyString
  | String c s' =>
      match skip with
      | S k => remove_from old k s'
      | O => if startswith old s
             then remove_from old (String.length old - 1) s'
             else String c (remove_from old 0 s')
      end
  end.

Definition remove (old s : string) : string := remove_from old 0 s.

(** [re.search(r'(\d+)d', age)]: [group(1)] of the leftmost match. *)
Fixpoint age_search (s : list N) : option (list N) :=
  let '(ds, r) := Freshness.take_digits s in
  if negb (match ds with [] => true | _ => false end)
     && Freshness.literal (code_points "d") r
  then Some ds
  else match s with
       | [] => None
       | _ :: s' => age_search s'
       end.

(** [age_days]: [None], or [int(age_match.group(1))], which raises
    [ValueError] on more digits than [int] takes. *)
Definition age_days_of (age : string) : outcome (option Z) :=
  match age_search (code_points age) with
  | Some ds => do n <- Freshness.int ds; Returns (Some n)
  | None => Returns None
  end.

Record job := {
  company : string;
  title : string;
  location : string;
  job_url : string;
  site : string;
  source : string;
  age_posted : string;
  age_days : option Z;
  requires_sponsorship : bool;
  requires_citizenship : bool;
  is_closed : bool;
  is_faang : bool;
  requires_advanced_degree : bool;
  job_type : string;
  description : string;
  date_posted : Freshness.date;
  collected_at : Z
}.

Section Scan.
Variable now : Z.

(** The body of [for row in rows]; [None] is a [continue]. *)
Definition make_job (cells : list td) : outcome (option job) :=
  if (length cells <? 5)%nat then Returns None
  else
    let tdtext i := match List.nth_error cells i with
                    | Some c => text c | None => "" end in
    let company := tdtext 0%nat in
    let role := tdtext 1%nat in
    let location := tdtext 2%nat in
    let age := tdtext 4%nat in
    let apply_url := match List.nth_error cells 3 with
                     | Some c => href c | None => None end in
    if Zapply.is_empty company || (len company <? 2)%nat then Returns None
    else
      let no_sponsorship := contains passport role in
      let us_citizenship := contains us_flag role in
      let closed := contains lock role in
      let faang := contains fire role in
      let advanced_degree := contains graduate role in
      let role_clean :=
        strip (List.fold_left (fun r emoji => remove emoji r)
                 [passport; us_flag; lock; fire; graduate] role) in
      do age_days <- age_days_of age;
      Returns (Some
        {| company := company;
           title := role_clean;
           location := location;
           job_url := match apply_url with
                      | Some (String c u) => String c u
                      | _ => "https://github.com/SimplifyJobs/New-Grad-Positions"
                      end;
           site := "github";
           source := "SimplifyJobs-GitHub";
           age_posted := age;
           age_days := age_days;
           requires_sponsorship := negb no_sponsorship;
           requires_citizenship := us_citizenship;
           is_closed := closed;
           is_faang := faang;
           requires_advanced_degree := advanced_degree;
           job_type := "fulltime";
           description :=
             "New graduate position at " +:+ company +:+ ". "
             +:+ (if faang then "FAANG company. " else "")
             +:+ (if us_citizenship then "US Citizenship required. " else "")
             +:+ (if no_sponsorship then "Visa sponsorship NOT available. "
                  else "Visa sponsorship may be available. ")
             +:+ (if advanced_degree
                  then "Advanced degree (Master's/PhD) required. " else "");
           date_posted := Freshness.strftime_date now;
           collected_at := now |}).

(** The loop over the rows: the records appended to [jobs]. *)
Fixpoint parse_rows (rows : list (list td)) : outcome (list job) :=
  match rows with
  | [] => Returns []
  | cells :: rest =>
      do made <- make_job cells;
      do jobs <- parse_rows rest;
      Returns (match made with
               | Some j => j :: jobs
               | None => jobs
               end)
  end.

(** [scrape_simplify_jobs_github()] up to [return df]: [response] is
    the outcome of the HTTP request, [soup] that of
    [BeautifulSoup(markdown, 'html.parser').find_all('table')].  An
    exception raised while the rows are read is caught like one raised
    by the HTML parser. *)
Definition scrape_simplify_jobs_github
    (response : outcome string) (soup : string -> outcome (list table))
  : option (list job) :=
  match response with
  | Raises => None
  | Returns markdown =>
      match soup markdown with
      | Raises => None
      | Returns [] => None
      | Returns (swe_table :: _) =>
          let rows := List.tl swe_table in
          match parse_rows rows with
          | Raises => None
          | Returns jobs =>
              if (length jobs =? 0)%nat then None else Some jobs
          end
      end
  end.
End Scan.

End Simplify.

(* ================================================================== *)
(** ** The SQLite snapshot writers: the three [save_to_database] *)

Module Store.
Section Rows.
(** A row of a table; a DataFrame is a [list row]. *)
Context {row : Type}.

(** The database file: the rows of each table that exists. *)
Abbreviation disk := (gmap string (list row)).

(** A [sqlite3] connection: the committed file and, while a
    transaction is open, the uncommitted view of it. *)
Record connection := {
  committed : disk;
  pending : option disk
}.

Definition view (c : connection) : disk :=
  match pending c with
  | Some v => v
  | None => committed c
  end.

(** The calls a writer makes; any of them can raise
    ([sqlite3.Error], a locked or unwritable file, ...). *)
Inductive db_op :=
| OpConnect | OpCreate | OpDelete | OpInsert | OpCommit | OpCount | OpClose.

(** Which calls raise during one run of a writer. *)
Definition faults := db_op -> bool.

Definition no_faults : faults := fun _ => false.

(** A call on a connection: its outcome and the connection after it. *)
Definition DB (A : Type) := connection -> outcome A * connection.

Definition ret {A} (a : A) : DB A := fun c => (Returns a, c).

Definition bind {A B} (m : DB A) (k : A -> DB B) : DB B :=
  fun c => match m c with
           | (Returns a, c') => k a c'
           | (Raises, c') => (Raises, c')
           end.

Definition guard (f : faults) (op : db_op) (m : DB unit) : DB unit :=
  fun c => if f op then (Raises, c) else m c.

(** [CREATE TABLE IF NOT EXISTS t (...)]: outside a transaction the
    statement is committed at once. *)
Definition create_table (t : string) : DB unit :=
  fun c =>
    let add (d : disk) := match d !! t with
                          | Some _ => d
                          | None => <[t := []]> d
                          end in
    (Returns tt,
     match pending c with
     | Some v => {| committed := committed c; pending := Some (add v) |}
     | None => {| committed := add (committed c); pending := None |}
     end).

(** [DELETE FROM t]: opens a transaction if none is open. *)
Definition delete_from (t : string) : DB unit :=
  fun c =>
    match view c !! t with
    | Some _ =>
        (Returns tt,
         {| committed := committed c; pending := Some (<[t := []]> (view c)) |})
    | None => (Raises, c)
    end.

(** [INSERT INTO t] of a batch, inside the open transaction. *)
Definition insert_into (t : string) (batch : list row) : DB unit :=
  fun c =>
    match view c !! t with
    | Some rows =>
        (Returns tt,
         {| committed := committed c;
            pending := Some (<[t := rows ++ batch]> (view c)) |})
    | None => (Raises, c)
    end.

(** [conn.commit()] *)
Definition commit : DB unit :=
  fun c => (Returns tt, {| committed := view c; pending := None |}).

(** [conn.rollback()] *)
Definition rollback : DB unit :=
  fun c => (Returns tt, {| committed := committed c; pending := None |}).

(** [SELECT COUNT( * ) FROM t] *)
Definition count (t : string) : DB nat :=
  fun c => match view c !! t with
           | Some rows => (Returns (length rows), c)
           | None => (Raises, c)
           end.

(** [jobs_df.to_sql(t, conn, if_exists='append', index=False)]:
    pandas inserts the rows and commits; when the insert raises it
    rolls back and raises again. *)
Definition to_sql_append (f : faults) (t : string) (batch : list row) : DB unit :=
  fun c =>
    if f OpInsert then (Raises, snd (rollback c))
    else match insert_into t batch c with
         | (Returns _, c') => commit c'
         | (Raises, c') => (Raises, snd (rollback c'))
         end.

(** What a writer prints last. *)
Inductive report :=
| NoJobsToSave
| Saved (count : nat)
| ErrorSaving.

(** The file once the connection is gone: open work is lost. *)
Definition after (c : connection) : disk := committed c.

(** The [try] block of [save_to_database] in [scrape_github_jobs.py]
    and [scrape_zapply_github.py], which differ in the table. *)
Definition write_snapshot (f : faults) (t : string) (batch : list row) : DB nat :=
  bind (guard f OpCreate (create_table t)) (fun _ =>
  bind (guard f OpDelete (delete_from t)) (fun _ =>
  bind (to_sql_append f t batch) (fun _ =>
  bind (guard f OpCommit commit) (fun _ =>
  bind (fun c => if f OpCount then (Raises, c) else count t c) (fun n =>
  bind (guard f OpClose (ret tt)) (fun _ =>
  ret n)))))).

(** [save_to_database(jobs_df)] of the Simplify and Zapply scripts:
    the exception of a failed write is caught and printed. *)
Definition save_to_database (t : string) (f : faults)
    (jobs_df : option (list row)) (d : disk) : report * disk :=
  match jobs_df with
  | None => (NoJobsToSave, d)
  | Some batch =>
      if (length batch =? 0)%nat then (NoJobsToSave, d)
      else if f OpConnect then (ErrorSaving, d)
      else match write_snapshot f t batch {| committed := d; pending := None |} with
           | (Returns n, c) => (Saved n, after c)
           | (Raises, c) => (ErrorSaving, after c)
           end
  end.

(** The [for job in jobs: cursor.execute(INSERT ...)] loop. *)
Fixpoint insert_each (f : faults) (t : string) (jobs : list row) : DB unit :=
  match jobs with
  | [] => ret tt
  | job :: rest =>
      bind (guard f OpInsert (insert_into t [job])) (fun _ => insert_each f t rest)
  end.

(** [save_to_database(jobs, db_path)] of [scrape_zapply_swe_2026.py]:
    no guard on an empty batch, and the exception is raised again. *)
Definition save_to_database_swe (t : string) (f : faults)
    (jobs : list row) (d : disk) : outcome unit * disk :=
  if f OpConnect then (Raises, d)
  else
    let run :=
      bind (guard f OpCreate (create_table t)) (fun _ =>
      bind (guard f OpDelete (delete_from t)) (fun _ =>
      bind (insert_each f t jobs) (fun _ =>
      bind (guard f OpCommit commit) (fun _ =>
      guard f OpClose (ret tt))))) in
    let '(r, c) := run {| committed := d; pending := None |} in
    (r, after c).

(** [main()] of the Simplify and Zapply scripts: return early when
    [jobs is None or len(jobs) == 0], else save. *)
Definition script_main (t : string) (f : faults)
    (jobs : option (list row)) (d : disk) : disk :=
  match jobs with
  | None | Some [] => d
  | Some batch => snd (save_to_database t f (Some batch) d)
  end.

(** The script body of [scrape_zapply_swe_2026.py]:
    [if jobs: save_to_database(jobs, db_path)]. *)
Definition swe_script (t : string) (f : faults)
    (jobs : option (list row)) (d : disk) : outcome unit * disk :=
  match jobs with
  | None | Some [] => (Returns tt, d)
  | Some batch => save_to_database_swe t f batch d
  end.

(** A property of the connection that a call keeps. *)
Definition preserves {A} (P : connection -> Prop) (m : DB A) : Prop :=
  forall c, P c -> P (snd (m c)).

(** Every table but [t] reads as in [d], committed or not. *)
Definition others_kept (t : string) (d : disk) (c : connection) : Prop :=
  forall t', t' <> t ->
    committed c !! t' = d !! t' /\ view c !! t' = d !! t'.

End Rows.

Arguments connection : clear implicits.

Definition github_jobs : string := "github_jobs".
Definition zapply_jobs : string := "zapply_jobs".
Definition zapply_swe_2026_jobs : string := "zapply_swe_2026_jobs".
Definition raw_jobs : string := "raw_jobs".

End Store.

(* ================================================================== *)
(** ** [master_scraper.py]: the orchestrator *)

Module Master.

(** The rows of the two tables the orchestrator writes. *)
Inductive row :=
| GithubRow (j : Simplify.job)
| ZapplyRow (j : Zapply.job).

Abbreviation disk := (gmap string (list row)).

(** The dictionary [run_scraper] returns, one field per key; [None] is
    a key the dictionary does not have. *)
Record run_result := {
  success : option bool;
  jobs : option nat;
  time : option Q;
  data : option (option (list row));
  error : option string
}.

(** [r.get('success', False)], [r.get('jobs', 0)], [r.get('time', 0)] *)
Definition get_success (r : run_result) : bool := default false (success r).
Definition get_jobs (r : run_result) : nat := default 0%nat (jobs r).
Definition get_time (r : run_result) : Q := default 0%Q (time r).

(** [run_scraper(scraper_name, scraper_function)]: [call] is the outcome
    of [scraper_function()] and [elapsed] the seconds it took.  The
    text [str(e)] of a caught exception is not kept. *)
Definition run_scraper (call : outcome (option (list row))) (elapsed : Q) : run_result :=
  match call with
  | Returns result =>
      match result with
      | Some df =>
          if (0 <? length df)%nat then
            {| success := Some true; jobs := Some (length df);
               time := Some elapsed; data := Some (Some df); error := None |}
          else
            {| success := Some false; jobs := Some 0%nat;
               time := Some elapsed; data := Some None; error := None |}
      | None =>
          {| success := Some false; jobs := Some 0%nat;
             time := Some elapsed; data := Some None; error := None |}
      end
  | Raises =>
      {| success := Some false; jobs := Some 0%nat; time := Some 0%Q;
         data := None; error := Some "exception" |}
  end.

Definition import_failed : run_result :=
  {| success := Some false; jobs := None; time := None; data := None;
     error := Some "Import failed" |}.

(** The two scraper calls of [main], on the outcome of the HTTP request
    (and of the HTML parse for SimplifyJobs). *)
Definition simplify_call (now : Z) (response : outcome string)
    (soup : string -> outcome (list Simplify.table)) : outcome (option (list row)) :=
  Returns (option_map (List.map GithubRow)
             (Simplify.scrape_simplify_jobs_github now response soup)).

Definition zapply_call (heading_company markdown_link : string -> option string)
    (now : Z) (response : outcome string) : outcome (option (list row)) :=
  Returns (option_map (List.map ZapplyRow)
             (Zapply.scrape_zapply_github heading_company markdown_link now response)).

(** What one source meets during a run. *)
Record source_run := {
  (** the [from ... import ...] raises [ImportError] *)
  import_error : bool;
  (** the outcome of calling the scraper *)
  call : outcome (option (list row));
  elapsed : Q;
  (** the database calls that raise while saving *)
  save_faults : @Store.faults
}.

(** One numbered block of [main]: import, [run_scraper], save when
    [result['success'] and result['data'] is not None], record the
    result.  A missing ['success'] or ['data'] key is a [KeyError]. *)
Definition run_source (table : string) (s : source_run) (d : disk)
  : outcome (run_result * disk) :=
  if import_error s then Returns (import_failed, d)
  else
    let result := run_scraper (call s) (elapsed s) in
    match success result with
    | None => Raises
    | Some false => Returns (result, d)
    | Some true =>
        match data result with
        | None => Raises
        | Some None => Returns (result, d)
        | Some (Some df) =>
            Returns (result,
                     snd (Store.save_to_database table (save_faults s) (Some df) d))
        end
    end.

(** The printed summary. *)
Record summary := {
  total_jobs : nat;
  total_time : Q;
  successful : nat;
  n_results : nat;
  (** one line per entry of [results]: mark, name, jobs, time *)
  breakdown : list (bool * string * nat * Q);
  (** rows counted per existing table and their sum; [None] when the
      database cannot be opened *)
  database_totals : option (list (string * nat) * nat)
}.

Definition checked_tables : list string :=
  [Store.raw_jobs; Store.github_jobs; Store.zapply_jobs].

Definition count_tables (d : disk) : list (string * nat) :=
  omap (fun t => match d !! t with
                 | Some rows => Some (t, length rows)
                 | None => None
                 end) checked_tables.

Definition summarize (results : list (string * run_result))
    (check_fails : bool) (d : disk) : summary :=
  {| total_jobs := list_sum (List.map (fun e => get_jobs (snd e)) results);
     total_time := List.fold_right Qplus 0%Q (List.map (fun e => get_time (snd e)) results);
     successful := length (List.filter (fun e => get_success (snd e)) results);
     n_results := length results;
     breakdown := List.map (fun e => (get_success (snd e), fst e,
                                      get_jobs (snd e), get_time (snd e))) results;
     database_totals :=
       if check_fails then None
       else Some (count_tables d, list_sum (List.map snd (count_tables d))) |}.

(** Everything outside the program that one run depends on. *)
Record world := {
  simplify : source_run;
  zapply : source_run;
  (** opening the database for the totals raises *)
  check_fails : bool
}.

(** [main()]: the results in insertion order, the summary printed
    before [return results], and the database afterwards. *)
Definition main (w : world) (d : disk)
  : outcome (list (string * run_result) * summary * disk) :=
  do r1 <- run_source Store.github_jobs (simplify w) d;
  do r2 <- run_source Store.zapply_jobs (zapply w) (snd r1);
  let results := [("simplify", fst r1); ("zapply", fst r2)] in
  Returns (results, summarize results (check_fails w) (snd r2), snd r2).

(** The [if all(not r.get('success', False) ...)] of the script body. *)
Definition exit_code (results : list (string * run_result)) : Z :=
  if forallb (fun e => negb (get_success (snd e))) results then 1 else 0.

(** The script: [results = main()], then [sys.exit]. *)
Definition script (w : world) (d : disk) : outcome (Z * summary * disk) :=
  do out <- main w d;
  Returns (exit_code (fst (fst out)), snd (fst out), snd out).

(** A source failed before any write: its import raised, or its
    scraper raised, returned [None], or returned an empty frame. *)
Definition failed (s : source_run) : Prop :=
  import_error s = true
  \/ call s = Raises \/ call s = Returns None \/ call s = Returns (Some []).

(** A source's scrape succeeded: its scraper returned [df], not empty.
    Its write may still fail. *)
Definition succeeded (s : source_run) (df : list row) : Prop :=
  import_error s = false /\ call s = Returns (Some df) /\ df <> [].

(** The name printed on a line of the breakdown. *)
Definition line_name (l : bool * string * nat * Q) : string := snd (fst (fst l)).

(** The insert of the write raises; every other call goes through. *)
Definition insert_raises : @Store.faults :=
  fun op => match op with Store.OpInsert => true | _ => false end.

(** Creating the table raises. *)
Definition create_raises : @Store.faults :=
  fun op => match op with Store.OpCreate => true | _ => false end.

End Master.

(* ================================================================== *)
(** ** The time pattern, as a language

    What it means for a text to match [(\d+)\s*(h|d|w|mo|m)\s*ago],
    stated without reference to how [re.search] finds the match. *)

Module TimePattern.
Import PyStr Freshness.

(** [r] is empty or starts with a character outside the class [p]. *)
Definition stops (p : N -> bool) (r : list N) : bool :=
  match r with
  | [] => true
  | c :: _ => negb (p c)
  end.

(** [m] is digits [ds], spaces, the unit [u], spaces, ["ago"], anything. *)
Definition MatchesAt (m ds : list N) (u : time_unit) : Prop :=
  exists ws1 ws2 rest,
    m = ds ++ ws1 ++ code_points (unit_text u) ++ ws2 ++ code_points "ago" ++ rest
    /\ ds <> []
    /\ forallb is_digit ds = true
    /\ forallb is_space ws1 = true
    /\ forallb is_space ws2 = true.


(** [ds] and [u] are the groups of the first match in [s]: the match
    starts after [pre], and no match starts earlier. *)
Definition FirstMatch (s ds : list N) (u : time_unit) : Prop :=
  exists pre m,
    s = pre ++ m /\ MatchesAt m ds u
    /\ forall pre' m' ds' u',
         s = pre' ++ m' -> MatchesAt m' ds' u' -> (length pre <= length pre')%nat.



(** 2026-11-03T00:00:00 as microseconds since 0001-01-01T00:00:00. *)
Definition now_2026 : Z := 739922 * us_per_day.

End TimePattern.


(* ================================================================== *)
(** ** What a parsed record must satisfy, and sample pages *)

Module Records.
Import PyStr Freshness.

(** A Zapply record carries the tags its own company and title give. *)
Definition ZapplyConsistent (j : Zapply.job) : Prop :=
  Zapply.job_type j = Zapply.job_type_of (Zapply.title j)
  /\ Zapply.is_faang j = Zapply.is_faang_of (Zapply.company j)
  /\ Zapply.is_tier1 j = Zapply.is_tier1_of (Zapply.company j)
  /\ Zapply.freshness_score j = calculate_freshness_score (Zapply.days_ago j).

Definition SweConsistent (j : Swe2026.job) : Prop :=
  Swe2026.is_faang j = Swe2026.is_faang_of (Swe2026.company j)
  /\ Swe2026.freshness_score j = calculate_freshness_score (Swe2026.days_ago j).

(** The pattern functions on pages without company headings and
    without links. *)
Definition no_heading : string -> option string := fun _ => None.
Definition no_link : string -> option string := fun _ => None.

(** A Zapply page: one table under the initial company. *)
Definition coop_page : string :=
  "| Role | Location | Posted | Level |
|---|---|---|---|
| Coop Developer | Toronto, ON | 2d ago | Entry-Level |".

(** The company heading pattern on the one heading used below. *)
Definition heading_of (name : string) : string -> option string :=
  fun line => if startswith ("#### **" +:+ name +:+ "**") line then Some name else None.

Definition company_page (name : string) : string :=
  "#### **" +:+ name +:+ "** (1 position)
| Role | Location | Posted | Level |
|---|---|---|---|
| Software Engineer | Toronto, ON | 3h ago | Entry-Level |".

(** A SWE-2026 page with one row. *)
Definition microsoft_page : string :=
  "| Company | Role | Location | Posted | Apply |
|--|--|--|--|--|
| Microsoft | Software Engineer | Redmond, WA | 2d ago | |".

(** A SimplifyJobs table: the header row and one posting. *)
Definition cell (t : string) : Simplify.td := {| Simplify.text := t; Simplify.href := None |}.

Definition google_table : Simplify.table :=
  [ [];
    [cell "Google"; cell "Software Engineer Intern"; cell "New York, NY";
     cell "Apply"; cell "2d"] ].

(** The parses of the sample pages on 2026-11-03. *)
Definition coop_jobs : option (list Zapply.job) :=
  Zapply.scrape_zapply_github no_heading no_link TimePattern.now_2026 (Returns coop_page).

Definition company_jobs (name : string) : option (list Zapply.job) :=
  Zapply.scrape_zapply_github (heading_of name) no_link TimePattern.now_2026
    (Returns (company_page name)).

Definition microsoft_jobs : option (list Swe2026.job) :=
  Swe2026.scrape_zapply_swe_2026 no_link TimePattern.now_2026 (Returns microsoft_page).

Definition table_jobs (t : Simplify.table) : option (list Simplify.job) :=
  Simplify.scrape_simplify_jobs_github TimePattern.now_2026
    (Returns "") (fun _ => Returns [t]).

(** The SimplifyJobs frame of [google_table], as the orchestrator gets it. *)
Definition google_frame : option (list Master.row) :=
  option_map (List.map Master.GithubRow) (table_jobs google_table).

(** A run in which SimplifyJobs is scraped but the write to its table
    raises at [op_faults], and the Zapply request fails. *)
Definition write_failure_world (op_faults : @Store.faults) : Master.world :=
  {| Master.simplify :=
       {| Master.import_error := false;
          Master.call := Returns google_frame;
          Master.elapsed := 2%Q;
          Master.save_faults := op_faults |};
     Master.zapply :=
       {| Master.import_error := false;
          Master.call := Master.zapply_call no_heading no_link TimePattern.now_2026 Raises;
          Master.elapsed := 30%Q;
          Master.save_faults := Store.no_faults |};
     Master.check_fails := false |}.

(** A run in which both requests fail. *)
Definition all_failed_world : Master.world :=
  {| Master.simplify :=
       {| Master.import_error := false;
          Master.call := Master.simplify_call TimePattern.now_2026 Raises
                           (fun _ => Returns []);
          Master.elapsed := 30%Q;
          Master.save_faults := Store.no_faults |};
     Master.zapply :=
       {| Master.import_error := false;
          Master.call := Master.zapply_call no_heading no_link TimePattern.now_2026 Raises;
          Master.elapsed := 30%Q;
          Master.save_faults := Store.no_faults |};
     Master.check_fails := false |}.

(** A database left by an earlier run: one row in each table. *)
Definition earlier_snapshot : gmap string (list Master.row) :=
  <[Store.zapply_jobs := List.map Master.ZapplyRow (default [] coop_jobs)]>
    (<[Store.github_jobs := default [] google_frame]> ∅).

End Records.

(* ================================================================== *)
(** ** [scrape_real_jobs.py]: combining the JobSpy searches *)

Module RealJobs.
Section Frames.
(** A row of a JobSpy frame and its [job_url] column; [None] is a
    missing value, which [drop_duplicates] treats as one more key. *)
Context {row : Type}.
Variable job_url : row -> option string.

(** [df.drop_duplicates(subset=['job_url'], keep='first')]: [seen] holds
    the keys of the rows kept so far. *)
Fixpoint drop_duplicates_from (seen : list (option string)) (rows : list row)
  : list row :=
  match rows with
  | [] => []
  | r :: rest =>
      if bool_decide (job_url r ∈ seen)
      then drop_duplicates_from seen rest
      else r :: drop_duplicates_from (job_url r :: seen) rest
  end.

Definition drop_duplicates (rows : list row) : list row :=
  drop_duplicates_from [] rows.

(** The loop of [main]: a search contributes its frame when
    [jobs is not None and len(jobs) > 0]. *)
Definition all_jobs (searches : list (option (list row))) : list (list row) :=
  omap (fun jobs => match jobs with
                    | Some (r :: rs) => Some (r :: rs)
                    | _ => None
                    end) searches.

(** What [main] hands to [save_to_database]: [None] when no search
    returned rows; else the concatenated frames without duplicates,
    and the number printed as "Duplicates removed". *)
Definition main_batch (searches : list (option (list row)))
  : option (list row * nat) :=
  match all_jobs searches with
  | [] => None
  | frames =>
      let combined_jobs := List.concat frames in
      let original_count := length combined_jobs in
      let unique := drop_duplicates combined_jobs in
      Some (unique, (original_count - length unique)%nat)
  end.

End Frames.
End RealJobs.

(* ================================================================== *)
(** ** [ui/app.py]: the freshness badge of [format_job_results] *)

Module Dashboard.

Definition badge_fresh : string :=
  "<span style='background-color: #28a745; color: white; padding: 2px 8px; border-radius: 3px; font-size: 0.85em; margin-left: 5px;'>🟢 Fresh</span>".
Definition badge_recent : string :=
  "<span style='background-color: #ffc107; color: black; padding: 2px 8px; border-radius: 3px; font-size: 0.85em; margin-left: 5px;'>🟡 Recent</span>".
Definition badge_active : string :=
  "<span style='background-color: #17a2b8; color: white; padding: 2px 8px; border-radius: 3px; font-size: 0.85em; margin-left: 5px;'>🔵 Active</span>".
Definition badge_older : string :=
  "<span style='background-color: #6c757d; color: white; padding: 2px 8px; border-radius: 3px; font-size: 0.85em; margin-left: 5px;'>⚪ Older</span>".

(** The [if days_ago is not None: ...] chain on [job.get("days_ago")]. *)
Definition freshness_badge (days_ago : option Q) : string :=
  match days_ago with
  | None => ""
  | Some days_ago =>
      if Freshness.Qltb days_ago 1 then badge_fresh
      else if Freshness.Qltb days_ago 7 then badge_recent
      else if Freshness.Qltb days_ago 30 then badge_active
      else badge_older
  end.

End Dashboard.

(* ================================================================== *)
(** ** Further sample pages and notions used in the statements below *)

Module Samples.
Import PyStr Freshness.

(** The rows of a table, none when the table does not exist. *)
Definition table_rows {row} (d : gmap string (list row)) (t : string) : list row :=
  default [] (d !! t).

(** A line the Zapply loop takes for a table separator. *)
Definition is_separator (line : string) : bool :=
  contains "|" line && contains "---" line.

(** No record that is not archived follows an archived one. *)
Definition archived_last (js : list Swe2026.job) : Prop :=
  exists l1 l2, js = l1 ++ l2
    /\ List.Forall (fun j => Swe2026.is_archived j = false) l1
    /\ List.Forall (fun j => Swe2026.is_archived j = true) l2.

(** A Zapply page whose table has no separator line. *)
Definition no_separator_page : string :=
  "| Role | Location | Posted | Level |
| Software Engineer | Toronto, ON | 2d ago | Entry-Level |".

(** A Zapply page with a good row and a row far too old. *)
Definition overflow_page : string :=
  "| Role | Location | Posted | Level |
|---|---|---|---|
| Software Engineer | Toronto, ON | 2d ago | Entry-Level |
| Data Engineer | Toronto, ON | 800000d ago | Entry-Level |".

(** The same rows in the SWE-2026 layout, under an archive heading. *)
Definition swe_overflow_page : string :=
  "| Company | Role | Location | Posted | Apply |
|--|--|--|--|--|
| Acme | Software Engineer | Toronto, ON | 2d ago | |
| Acme | Data Engineer | Toronto, ON | 800000d ago | |
## Archived Jobs
| Initech | Developer | Remote | 3w ago | |".

(** [swe_overflow_page] without the row that is far too old. *)
Definition swe_clean_page : string :=
  "| Company | Role | Location | Posted | Apply |
|--|--|--|--|--|
| Acme | Software Engineer | Toronto, ON | 2d ago | |
## Archived Jobs
| Initech | Developer | Remote | 3w ago | |".

(** A SWE-2026 page whose company ends in the Kelvin sign, U+212A. *)
Definition kelvin_page : string :=
  "| Company | Role | Location | Posted | Apply |
|--|--|--|--|--|
| FACEBOOK | Software Engineer | Menlo Park, CA | 2d ago | |".

(** A SimplifyJobs table whose apply link has an empty [href]. *)
Definition empty_href_table : Simplify.table :=
  [ [];
    [Records.cell "Acme"; Records.cell "Software Engineer"; Records.cell "NY";
     {| Simplify.text := "Apply"; Simplify.href := Some "" |};
     Records.cell "1d"] ].

(** A SimplifyJobs table with a row that is too short. *)
Definition short_row_table : Simplify.table :=
  [ [];
    [Records.cell "Acme"; Records.cell "Software Engineer 🔒🇺🇸"; Records.cell "NY";
     Records.cell "Apply"; Records.cell "3d"];
    [Records.cell "Initech"; Records.cell "Developer"] ].

(** A run in which both sources are scraped and both writes go through. *)
Definition zapply_frame : list Master.row :=
  List.map Master.ZapplyRow (default [] Records.coop_jobs).

Definition clean_world : Master.world :=
  {| Master.simplify :=
       {| Master.import_error := false;
          Master.call := Returns Records.google_frame;
          Master.elapsed := 2%Q;
          Master.save_faults := Store.no_faults |};
     Master.zapply :=
       {| Master.import_error := false;
          Master.call := Returns (Some zapply_frame);
          Master.elapsed := 3%Q;
          Master.save_faults := Store.no_faults |};
     Master.check_fails := false |}.

(** The same scrapes with the insert of both writes raising. *)
Definition both_writes_fail_world : Master.world :=
  {| Master.simplify :=
       {| Master.import_error := false;
          Master.call := Returns Records.google_frame;
          Master.elapsed := 2%Q;
          Master.save_faults := Master.insert_raises |};
     Master.zapply :=
       {| Master.import_error := false;
          Master.call := Returns (Some zapply_frame);
          Master.elapsed := 3%Q;
          Master.save_faults := Master.insert_raises |};
     Master.check_fails := false |}.

(** The same run with the SimplifyJobs scraper not importable. *)
Definition zapply_only_world : Master.world :=
  {| Master.simplify :=
       {| Master.import_error := true;
          Master.call := Raises;
          Master.elapsed := 0%Q;
          Master.save_faults := Store.no_faults |};
     Master.zapply := Master.zapply clean_world;
     Master.check_fails := false |}.

(** The age cell of a SimplifyJobs row has digits followed by "d". *)
Definition HasAge (s : list N) : Prop :=
  exists pre ds rest,
    s = pre ++ ds ++ code_points "d" ++ rest
    /\ ds <> [] /\ forallb is_digit ds = true.

(** [ds] is the run of digits of the first such place in [s]. *)
Definition FirstAge (s ds : list N) : Prop :=
  exists pre rest,
    s = pre ++ ds ++ code_points "d" ++ rest
    /\ ds <> [] /\ forallb is_digit ds = true
    /\ forall pre' ds' rest',
         s = pre' ++ ds' ++ code_points "d" ++ rest' ->
         ds' <> [] -> forallb is_digit ds' = true ->
         (length pre <= length pre')%nat.

(** A small JobSpy row: its URL and its title. *)
Definition url_of (r : option string * string) : option string := fst r.

Definition searched : list (option (list (option string * string))) :=
  [ Some [(Some "https://a/1", "Software Intern"); (Some "https://a/2", "Data Intern")];
    None;
    Some [];
    Some [(Some "https://a/2", "Data Science Intern"); (None, "No link");
          (Some "https://a/3", "QA Intern"); (None, "No link either")] ].

End Samples.

(* ================================================================== *)
(** ** Facts about the string primitives *)

(** Runs the parser [t] on a sample page that yields one record, names
    the fact [Parsed] and offers the record. *)
Ltac run_parser t :=
  let v := eval vm_compute in t in
  lazymatch v with
  | Some [?j] =>
      assert (Parsed : t = Some [j]) by (vm_compute; reflexivity);
      exists j
  end.

Module PyStrFacts.
Import PyStr.

Lemma startswith_app (p r : string) : startswith p (p +:+ r) = true.
Proof.
  induction p as [|a p IH]; simpl; [reflexivity|].
  rewrite Ascii.eqb_refl. exact IH.
Qed.

Lemma startswith_inv (p s : string) :
  startswith p s = true -> exists r, s = p +:+ r.
Proof.
  revert s. induction p as [|a p IH]; intros s H.
  - exists s. reflexivity.
  - destruct s as [|b s]; simpl in H; [discriminate|].
    apply andb_true_iff in H as [Hab Hps].
    apply Ascii.eqb_eq in Hab. subst b.
    destruct (IH s Hps) as [r ->]. exists r. reflexivity.
Qed.

Lemma startswith_spec (p s : string) :
  startswith p s = true <-> exists r, s = p +:+ r.
Proof.
  split; [apply startswith_inv|].
  intros [r ->]. apply startswith_app.
Qed.

Lemma append_cons (x : ascii) (a b : string) :
  String x a +:+ b = String x (a +:+ b).
Proof. reflexivity. Qed.

Lemma append_nil (b : string) : EmptyString +:+ b = b.
Proof. reflexivity. Qed.

Lemma contains_startswith (sub s : string) :
  startswith sub s = true -> contains sub s = true.
Proof. intros H. destruct s; simpl; rewrite H; reflexivity. Qed.

(** [sub in s] decides the substring relation. *)
Lemma contains_spec (sub s : string) :
  contains sub s = true <-> Substring sub s.
Proof.
  split.
  - induction s as [|c s IH]; simpl; intros H.
    + rewrite orb_false_r in H. apply startswith_inv in H as [r Hr].
      exists EmptyString, r. exact Hr.
    + apply orb_true_iff in H as [H|H].
      * apply startswith_inv in H as [r Hr]. exists EmptyString, r. exact Hr.
      * destruct (IH H) as (l & r & ->). exists (String c l), r. reflexivity.
  - intros (l & r & ->). induction l as [|c l IH].
    + rewrite append_nil. apply contains_startswith, startswith_app.
    + rewrite append_cons. simpl. rewrite IH. apply orb_true_r.
Qed.

Lemma contains_false (sub s : string) :
  contains sub s = false <-> ~ Substring sub s.
Proof.
  rewrite <- contains_spec. destruct (contains sub s); split; intros H;
    try reflexivity; try discriminate; try (intros E; discriminate).
  exfalso. apply H. reflexivity.
Qed.

(** [any(sub in s for sub in subs)] *)
Lemma any_contains_spec (subs : list string) (s : string) :
  any (fun sub => contains sub s) subs = true
  <-> exists sub, In sub subs /\ Substring sub s.
Proof.
  unfold any. rewrite existsb_exists.
  split; intros (sub & Hin & H); exists sub; split; try exact Hin;
    apply contains_spec; exact H.
Qed.

(** Reading a [str] character by character loses nothing. *)
Lemma text_chars (s : string) : text (chars s) = s.
Proof.
  assert (H : forall n s, (String.length s <= n)%nat -> text (chars s) = s).
  { clear s. induction n as [|n IH]; intros s Hn.
    - destruct s; [reflexivity|simpl in Hn; lia].
    - destruct s as [|b0 s0]; [reflexivity|]. simpl in Hn.
      cbn [chars].
      destruct (code b0 <? 128)%N;
        [cbn [text snd]; rewrite IH by lia; reflexivity|].
      destruct (code b0 <? 192)%N;
        [cbn [text snd]; rewrite IH by lia; reflexivity|].
      destruct s0 as [|b1 s1];
        [cbn [text snd]; rewrite IH by (simpl; lia); reflexivity|].
      simpl in Hn.
      destruct (code b0 <? 224)%N;
        [cbn [text snd]; rewrite IH by lia; reflexivity|].
      destruct s1 as [|b2 s2];
        [cbn [text snd]; rewrite IH by (simpl; lia); reflexivity|].
      simpl in Hn.
      destruct (code b0 <? 240)%N;
        [cbn [text snd]; rewrite IH by lia; reflexivity|].
      destruct s2 as [|b3 s3];
        [cbn [text snd]; rewrite IH by (simpl; lia); reflexivity|].
      simpl in Hn.
      cbn [text snd]; rewrite IH by lia; reflexivity. }
  exact (H (String.length s) s (le_n _)).
Qed.

End PyStrFacts.

(* ================================================================== *)
(** ** The freshness score *)

Module FreshnessFacts.
Import PyStr Freshness.

Lemma Qltb_lt (x y : Q) : Qltb x y = true <-> (x < y)%Q.
Proof.
  unfold Qltb. rewrite negb_true_iff, <- not_true_iff_false, Qle_bool_iff.
  split; [apply Qnot_le_lt | apply Qlt_not_le].
Qed.

Lemma Qltb_ge (x y : Q) : Qltb x y = false <-> (y <= x)%Q.
Proof.
  unfold Qltb. rewrite negb_false_iff. apply Qle_bool_iff.
Qed.

Ltac score_case :=
  repeat match goal with
    | |- context [Qltb ?a ?b] =>
        let E := fresh "E" in
        destruct (Qltb a b) eqn:E;
        [apply Qltb_lt in E | apply Qltb_ge in E]
    end.

Lemma score_cases (days_ago : option Q) :
  In (calculate_freshness_score days_ago) [100; 90; 75; 60; 50; 40; 20].
Proof.
  destruct days_ago as [a|]; simpl; [|tauto].
  score_case; tauto.
Qed.

(** C2. [calculate_freshness_score] is the step function of the age in
    days: below 1 it is 100, from 1 and below 7 it is 90, from 7 and
    below 14 it is 75, from 14 and below 30 it is 60, from 30 and below
    60 it is 40, from 60 on it is 20, and 50 when there is no age.  The
    score always lies in [0,100], and an age equal to a break point
    gets the lower score: 7 gives 75 and 1 gives 90. *)
Theorem freshness_score_step_function :
  (forall age : Q,
      ((age < 1)%Q -> calculate_freshness_score (Some age) = 100)
      /\ ((1 <= age)%Q /\ (age < 7)%Q -> calculate_freshness_score (Some age) = 90)
      /\ ((7 <= age)%Q /\ (age < 14)%Q -> calculate_freshness_score (Some age) = 75)
      /\ ((14 <= age)%Q /\ (age < 30)%Q -> calculate_freshness_score (Some age) = 60)
      /\ ((30 <= age)%Q /\ (age < 60)%Q -> calculate_freshness_score (Some age) = 40)
      /\ ((60 <= age)%Q -> calculate_freshness_score (Some age) = 20))
  /\ calculate_freshness_score None = 50
  /\ (forall days_ago, 0 <= calculate_freshness_score days_ago <= 100)
  /\ calculate_freshness_score (Some 7%Q) = 75
  /\ calculate_freshness_score (Some 1%Q) = 90
  /\ calculate_freshness_score (Some (999 # 1000)%Q) = 100
  /\ calculate_freshness_score (Some (6999 # 1000)%Q) = 90.
Proof.
  split; [|split; [reflexivity|split; [|repeat split; reflexivity]]].
  - intros age. unfold calculate_freshness_score.
    repeat split; intros H; score_case; try reflexivity; exfalso;
      repeat match goal with
        | H : (_ /\ _) |- _ => destruct H
        end;
      repeat match goal with
        | H1 : (?a < ?b)%Q, H2 : (?b <= ?a)%Q |- _ =>
            exact (Qlt_not_le _ _ H1 H2)
        | H1 : (?a < ?b)%Q, H2 : (?c <= ?a)%Q |- _ =>
            let K := fresh in
            assert (K : (c < b)%Q) by (eapply Qle_lt_trans; eassumption);
            revert K; clear; intros K; vm_compute in K; discriminate
        end.
  - intros d. pose proof (score_cases d) as H. simpl in H.
    repeat destruct H as [H|H]; try (rewrite <- H; lia). contradiction.
Qed.

Lemma freshness_score_step_function_witness :
  calculate_freshness_score (Some 7%Q) = 75
  /\ calculate_freshness_score (Some (13 # 2)%Q) = 90
  /\ calculate_freshness_score (Some 45%Q) = 40.
Proof.
  destruct freshness_score_step_function as (H & _).
  split; [|split].
  - refine (proj1 (proj2 (proj2 (H 7%Q))) _). split; [apply Qle_refl|reflexivity].
  - refine (proj1 (proj2 (H (13 # 2)%Q)) _). split; [discriminate|reflexivity].
  - refine (proj1 (proj2 (proj2 (proj2 (proj2 (H 45%Q))))) _).
    split; [discriminate|reflexivity].
Defined.

End FreshnessFacts.

(* ================================================================== *)
(** ** The time pattern: [re_search] finds exactly the first match *)

Module TimeFacts.
Import PyStr Freshness TimePattern PyStrFacts.

(** Every decimal digit lies in a run of ten that starts at a zero. *)
Lemma decimal_inv (c : N) (v : Z) :
  decimal c = Some v ->
  exists z, In z decimal_zeros /\ (z <= c < z + 10)%N /\ v = Z.of_N (c - z).
Proof.
  unfold decimal.
  destruct (List.find _ decimal_zeros) as [z|] eqn:F; [|discriminate].
  intros H. inversion H; subst. apply List.find_some in F as [Hin Hz].
  apply andb_true_iff in Hz as [H1 H2].
  apply N.leb_le in H1. apply N.ltb_lt in H2. exists z. auto.
Qed.

Lemma is_digit_inv (c : N) :
  is_digit c = true -> exists z, In z decimal_zeros /\ (z <= c < z + 10)%N.
Proof.
  unfold is_digit. destruct (decimal c) as [v|] eqn:E; [|discriminate].
  intros _. destruct (decimal_inv _ _ E) as (z & Hin & Hz & _). eauto.
Qed.

Lemma is_space_inv (c : N) :
  is_space c = true ->
  (9 <= c <= 13 \/ 28 <= c <= 32 \/ c = 133 \/ c = 160 \/ c = 5760
   \/ 8192 <= c <= 8202 \/ c = 8232 \/ c = 8233 \/ c = 8239 \/ c = 8287
   \/ c = 12288)%N.
Proof.
  unfold is_space. intros H.
  repeat match type of H with
    | (_ || _) = true => apply orb_true_iff in H as [H|H]
    end;
  repeat match type of H with
    | (_ && _) = true =>
        let H1 := fresh in let H2 := fresh in
        apply andb_true_iff in H as [H1 H2];
        apply N.leb_le in H1; apply N.leb_le in H2
    | (_ =? _)%N = true => apply N.eqb_eq in H
    end; lia.
Qed.

(** No character is both white space and a decimal digit. *)
Lemma space_not_digit (c : N) : is_space c = true -> is_digit c = false.
Proof.
  intros Hs. apply is_space_inv in Hs.
  destruct (is_digit c) eqn:Hd; [|reflexivity]. exfalso.
  apply is_digit_inv in Hd as (z & Hin & Hz).
  unfold decimal_zeros in Hin. simpl in Hin.
  repeat (destruct Hin as [<-|Hin]; [lia|]). contradiction.
Qed.

Lemma take_digits_app (ds r : list N) :
  forallb is_digit ds = true -> stops is_digit r = true ->
  take_digits (ds ++ r) = (ds, r).
Proof.
  intros Hds Hr. induction ds as [|c ds IH].
  - destruct r as [|c r]; [reflexivity|].
    simpl in *. apply negb_true_iff in Hr. now rewrite Hr.
  - simpl in Hds. apply andb_true_iff in Hds as [Hc Hds].
    simpl. rewrite Hc, (IH Hds). reflexivity.
Qed.

Lemma take_digits_spec (s ds r : list N) :
  take_digits s = (ds, r) ->
  s = ds ++ r /\ forallb is_digit ds = true /\ stops is_digit r = true.
Proof.
  revert ds r. induction s as [|c s IH]; intros ds r H; simpl in H.
  - inversion H; subst. repeat split.
  - destruct (is_digit c) eqn:Hc.
    + destruct (take_digits s) as [ds' r'] eqn:E. inversion H; subst.
      destruct (IH ds' r eq_refl) as (-> & Hd & Hs).
      repeat split; simpl; try assumption. now rewrite Hc, Hd.
    + inversion H; subst. repeat split. simpl. now rewrite Hc.
Qed.

Lemma skip_spaces_app (ws r : list N) :
  forallb is_space ws = true -> stops is_space r = true ->
  skip_spaces (ws ++ r) = r.
Proof.
  intros Hws Hr. induction ws as [|c ws IH].
  - destruct r as [|c r]; [reflexivity|].
    simpl in *. apply negb_true_iff in Hr. now rewrite Hr.
  - simpl in Hws. apply andb_true_iff in Hws as [Hc Hws].
    simpl. rewrite Hc. apply IH, Hws.
Qed.

Lemma skip_spaces_spec (s : list N) :
  exists ws, s = ws ++ skip_spaces s /\ forallb is_space ws = true.
Proof.
  induction s as [|c s (ws & E & Hws)].
  - exists []. split; reflexivity.
  - simpl. destruct (is_space c) eqn:Hc.
    + exists (c :: ws). split.
      * simpl. f_equal. exact E.
      * simpl. now rewrite Hc, Hws.
    + exists []. split; reflexivity.
Qed.

Lemma literal_app (p r : list N) : literal p (p ++ r) = true.
Proof.
  induction p as [|a p IH]; simpl; [reflexivity|].
  rewrite N.eqb_refl. exact IH.
Qed.

Lemma literal_inv (p s : list N) :
  literal p s = true -> exists r, s = p ++ r.
Proof.
  revert s. induction p as [|a p IH]; intros s H.
  - exists s. reflexivity.
  - destruct s as [|b s]; simpl in H; [discriminate|].
    apply andb_true_iff in H as [Hab Hps].
    apply N.eqb_eq in Hab. subst b.
    destruct (IH s Hps) as [r ->]. exists r. reflexivity.
Qed.

Lemma skipn_app_length (p r : list N) : List.skipn (length p) (p ++ r) = r.
Proof. induction p as [|c p IH]; [reflexivity|exact IH]. Qed.

Lemma unit_head (u : time_unit) (r : list N) :
  stops is_digit (code_points (unit_text u) ++ r) = true
  /\ stops is_space (code_points (unit_text u) ++ r) = true.
Proof. destruct u; split; reflexivity. Qed.

Lemma stops_app (p q : N -> bool) (ws r : list N) :
  (forall c, p c = true -> q c = false) ->
  forallb p ws = true -> stops q r = true -> stops q (ws ++ r) = true.
Proof.
  intros Hpq Hws Hr. destruct ws as [|c ws]; [exact Hr|].
  simpl in Hws. apply andb_true_iff in Hws as [Hc _].
  simpl. now rewrite (Hpq c Hc).
Qed.

(** After the unit and the spaces that follow it comes ["ago"]. *)
Lemma match_unit_ago_app (u : time_unit) (ws2 rest : list N) :
  forallb is_space ws2 = true ->
  match_unit_ago (code_points (unit_text u) ++ ws2 ++ code_points "ago" ++ rest) u
  = true.
Proof.
  intros Hws. unfold match_unit_ago.
  rewrite literal_app, skipn_app_length, skip_spaces_app;
    try assumption; reflexivity.
Qed.

Lemma not_mo (ws2 rest : list N) :
  forallb is_space ws2 = true ->
  literal (code_points "mo") (code_points "m" ++ ws2 ++ code_points "ago" ++ rest)
  = false.
Proof.
  intros Hws. destruct ws2 as [|c ws2]; [reflexivity|].
  simpl in Hws. apply andb_true_iff in Hws as [Hc _].
  change (code_points "mo") with [109; 111]%N.
  change (code_points "m") with [109]%N.
  cbn [app literal]. rewrite N.eqb_refl. cbn [andb].
  destruct (N.eqb_spec 111 c) as [<-|_]; [discriminate Hc|reflexivity].
Qed.

(** The first alternative that fits is the unit of the match. *)
Lemma find_unit (u : time_unit) (ws2 rest : list N) :
  forallb is_space ws2 = true ->
  List.find (match_unit_ago (code_points (unit_text u) ++ ws2 ++ code_points "ago" ++ rest))
    unit_alternatives = Some u.
Proof.
  intros Hws. pose proof (match_unit_ago_app u ws2 rest Hws) as Hu.
  destruct u; unfold unit_alternatives, List.find.
  - now rewrite Hu.
  - change (match_unit_ago _ UH) with false. cbv iota. now rewrite Hu.
  - change (match_unit_ago _ UH) with false.
    change (match_unit_ago _ UD) with false. cbv iota. now rewrite Hu.
  - change (match_unit_ago _ UH) with false.
    change (match_unit_ago _ UD) with false.
    change (match_unit_ago _ UW) with false. cbv iota. now rewrite Hu.
  - change (match_unit_ago _ UH) with false.
    change (match_unit_ago _ UD) with false.
    change (match_unit_ago _ UW) with false. cbv iota.
    assert (Hmo : match_unit_ago
                    (code_points (unit_text UM) ++ ws2 ++ code_points "ago" ++ rest)
                    UMo = false).
    { unfold match_unit_ago. change (unit_text UMo) with "mo".
      change (unit_text UM) with "m". now rewrite not_mo. }
    now rewrite Hmo, Hu.
Qed.

Lemma match_here_complete (m ds : list N) (u : time_unit) :
  MatchesAt m ds u -> match_here m = Some (ds, u).
Proof.
  intros (ws1 & ws2 & rest & -> & Hne & Hds & Hw1 & Hw2).
  unfold match_here.
  rewrite take_digits_app; try assumption.
  - destruct ds as [|c ds]; [contradiction|].
    rewrite skip_spaces_app; try assumption.
    + now rewrite find_unit.
    + apply unit_head.
  - apply (stops_app is_space); try assumption.
    + apply space_not_digit.
    + apply unit_head.
Qed.

Lemma find_unit_inv (r : list N) (u : time_unit) :
  List.find (match_unit_ago r) unit_alternatives = Some u ->
  exists ws2 rest,
    r = code_points (unit_text u) ++ ws2 ++ code_points "ago" ++ rest
    /\ forallb is_space ws2 = true.
Proof.
  intros H. apply List.find_some in H as [_ H].
  unfold match_unit_ago in H. apply andb_true_iff in H as [H1 H2].
  apply literal_inv in H1 as [r' ->]. rewrite skipn_app_length in H2.
  apply literal_inv in H2 as [rest Hrest].
  destruct (skip_spaces_spec r') as (ws2 & E & Hws).
  exists ws2, rest. split; [|exact Hws]. rewrite E at 1. now rewrite Hrest.
Qed.

Lemma match_here_sound (m ds : list N) (u : time_unit) :
  match_here m = Some (ds, u) -> MatchesAt m ds u.
Proof.
  unfold match_here. destruct (take_digits m) as [ds' r] eqn:E.
  apply take_digits_spec in E as (-> & Hds & _).
  destruct ds' as [|c ds']; [discriminate|].
  destruct (List.find _ _) as [u'|] eqn:F; [|discriminate].
  intros H. inversion H; subst. clear H.
  apply find_unit_inv in F as (ws2 & rest & E & Hw2).
  destruct (skip_spaces_spec r) as (ws1 & Er & Hw1).
  exists ws1, ws2, rest. repeat split; try assumption; try discriminate.
  rewrite Er at 1. now rewrite E.
Qed.

Lemma re_search_unfold (s : list N) :
  re_search s =
  match match_here s with
  | Some m => Some m
  | None => match s with
            | [] => None
            | _ :: s' => re_search s'
            end
  end.
Proof. destruct s; reflexivity. Qed.


(** What [re_search] returns are the groups of the first match. *)
Lemma re_search_first (s ds : list N) (u : time_unit) :
  re_search s = Some (ds, u) -> FirstMatch s ds u.
Proof.
  induction s as [|c s IH]; rewrite re_search_unfold.
  - destruct (match_here []) as [p|] eqn:E; [|discriminate].
    intros H. inversion H; subst. exists [], [].
    split; [reflexivity|]. split; [now apply match_here_sound|].
    intros; simpl; lia.
  - destruct (match_here (c :: s)) as [p|] eqn:E.
    + intros H. inversion H; subst. exists [], (c :: s).
      split; [reflexivity|]. split; [now apply match_here_sound|].
      intros; simpl; lia.
    + intros H. destruct (IH H) as (pre & m & -> & Hm & Hfirst).
      exists (c :: pre), m. split; [reflexivity|]. split; [exact Hm|].
      intros pre' m' ds' u' Es Hm'. destruct pre' as [|c' pre'].
      * simpl in Es. subst m'. apply match_here_complete in Hm'. congruence.
      * simpl in Es. inversion Es; subst.
        simpl. apply le_n_S. exact (Hfirst _ _ _ _ H2 Hm').
Qed.




End TimeFacts.

(* ================================================================== *)
(** ** Floats: rounding keeps the sign and stays close *)

Module FloatFacts.
Import PyFloat.
Local Open Scope Q_scope.


Lemma round_half_even_floor (q : Q) :
  round_half_even q = Qfloor q \/ round_half_even q = (Qfloor q + 1)%Z.
Proof.
  unfold round_half_even. destruct (Qcompare _ _); [|tauto|tauto].
  destruct (Z.even _); tauto.
Qed.

Lemma round_half_even_nonneg (q : Q) : 0 <= q -> (0 <= round_half_even q)%Z.
Proof.
  intros H. assert (0 <= Qfloor q)%Z.
  { change 0%Z with (Qfloor 0). now apply Qfloor_resp_le. }
  destruct (round_half_even_floor q) as [-> | ->]; lia.
Qed.



Lemma ulp_pos (q : Q) : 0 < ulp q.
Proof. unfold ulp. apply Qpower_0_lt. reflexivity. Qed.

Lemma round_double_nonneg (q : Q) : 0 <= round_double q.
Proof.
  unfold round_double. destruct (Qle_bool q 0) eqn:E; [apply Qle_refl|].
  rewrite Qred_correct.
  assert (Hq : 0 < q).
  { apply Qnot_le_lt. intros H. apply Qle_bool_iff in H. congruence. }
  apply Qmult_le_0_compat; [|apply Qlt_le_weak, ulp_pos].
  change 0 with (inject_Z 0). rewrite <- Zle_Qle.
  apply round_half_even_nonneg.
  apply Qle_shift_div_l; [apply ulp_pos|]. rewrite Qmult_0_l.
  now apply Qlt_le_weak.
Qed.








End FloatFacts.

(* ================================================================== *)
(** ** [parse_time_ago] *)

Module ParseTimeFacts.
Import PyStr PyFloat Freshness TimePattern PyStrFacts TimeFacts FloatFacts.

Lemma digit_value_range (c : N) :
  is_digit c = true -> 0 <= digit_value c <= 9.
Proof.
  unfold is_digit, digit_value.
  destruct (decimal c) as [v|] eqn:E; [|discriminate]. intros _.
  destruct (decimal_inv _ _ E) as (z & _ & Hz & ->). simpl. lia.
Qed.

Lemma int_acc_nonneg (ds : list N) (acc : Z) :
  forallb is_digit ds = true -> 0 <= acc -> 0 <= int_acc acc ds.
Proof.
  revert acc. induction ds as [|c ds IH]; intros acc Hds Hacc; simpl; [exact Hacc|].
  simpl in Hds. apply andb_true_iff in Hds as [Hc Hds].
  apply IH; [exact Hds|]. pose proof (digit_value_range c Hc). lia.
Qed.

Lemma int_nonneg (ds : list N) (n : Z) :
  forallb is_digit ds = true -> int ds = Returns n -> 0 <= n.
Proof.
  unfold int. destruct (_ <? _)%nat; [discriminate|].
  intros Hds H. inversion H; subst. apply int_acc_nonneg; [exact Hds|lia].
Qed.




Lemma days_of_nonneg (n : Z) (u : time_unit) (age : Q) :
  0 <= n -> days_of n u = Returns age -> (0 <= age)%Q.
Proof.
  intros Hn. destruct u; simpl; intros H.
  - destruct (float_of_int n) as [f|]; [|discriminate]. simpl in H.
    inversion H; subst. apply round_double_nonneg.
  - inversion H; subst. change 0%Q with (inject_Z 0). rewrite <- Zle_Qle. lia.
  - inversion H; subst. change 0%Q with (inject_Z 0). rewrite <- Zle_Qle. lia.
  - inversion H; subst. change 0%Q with (inject_Z 0). rewrite <- Zle_Qle. lia.
  - inversion H; subst. change 0%Q with (inject_Z 0). rewrite <- Zle_Qle. lia.
Qed.




Lemma timedelta_days_nonneg (d : Q) (delta : Z) :
  (0 <= d)%Q -> timedelta_days d = Returns delta -> 0 <= delta.
Proof.
  intros Hd. unfold timedelta_days.
  assert (H0 : 0 <= Qfloor d).
  { change 0 with (Qfloor 0). now apply Qfloor_resp_le. }
  set (x := if Qeq_bool _ 0 then _ else _).
  assert (Hx : 0 <= x).
  { unfold x. destruct (Qeq_bool _ _); [unfold us_per_day; lia|].
    assert (Hf : 0 <= Qfloor (float_mul (inject_Z us_per_day)
                                (d - inject_Z (Qfloor d)))).
    { change 0 with (Qfloor 0). apply Qfloor_resp_le, round_double_nonneg. }
    destruct (Qcompare _ _); [destruct (Z.odd _)| |];
      unfold us_per_day in *; lia. }
  destruct (_ <? _); [discriminate|]. intros H. now inversion H.
Qed.



Lemma datetime_sub_inv (now delta t : Z) :
  datetime_sub now delta = Returns t -> delta <= now /\ t = now - delta.
Proof.
  unfold datetime_sub. destruct (Z.ltb_spec (now - delta) 0) as [Hlt|Hge];
    [discriminate|].
  intros K. inversion K. lia.
Qed.

(** What [parse_time_ago] does with the match [re.search] returns. *)
Lemma parse_time_ago_found (now : Z) (text : string) (ds : list N) (u : time_unit) :
  re_search (code_points (strip (lower text))) = Some (ds, u) ->
  parse_time_ago now text =
    (do value <- int ds;
     do days_ago <- days_of value u;
     do delta <- timedelta_days days_ago;
     do date_posted <- datetime_sub now delta;
     Returns (Some (strftime_date date_posted), Some days_ago)).
Proof. intros H. unfold parse_time_ago. now rewrite H. Qed.

(** When [parse_time_ago] returns on a text with a match, every step
    of it has returned. *)
Lemma parse_time_ago_inv (now : Z) (text : string) (ds : list N) (u : time_unit)
    (r : option date * option Q) :
  re_search (code_points (strip (lower text))) = Some (ds, u) ->
  parse_time_ago now text = Returns r ->
  exists n age delta,
    int ds = Returns n /\ days_of n u = Returns age
    /\ timedelta_days age = Returns delta /\ delta <= now
    /\ r = (Some (strftime_date (now - delta)), Some age).
Proof.
  intros E. rewrite (parse_time_ago_found _ _ _ _ E).
  destruct (int ds) as [n|] eqn:I; [|discriminate]. cbn [obind].
  destruct (days_of n u) as [age|] eqn:A; [|discriminate]. cbn [obind].
  destruct (timedelta_days age) as [delta|] eqn:T; [|discriminate]. cbn [obind].
  destruct (datetime_sub now delta) as [t|] eqn:S; [|discriminate]. cbn [obind].
  apply datetime_sub_inv in S as [Hle ->].
  intros H. inversion H; subst. exists n, age, delta. repeat split; auto.
Qed.






Example parse_3h : parse_time_ago now_2026 "3h ago" = Returns (Some 739921, Some (1 # 8)%Q).
Proof. reflexivity. Qed.

Example parse_2d : parse_time_ago now_2026 "2d ago" = Returns (Some 739920, Some 2%Q).
Proof. reflexivity. Qed.

Example parse_1w : parse_time_ago now_2026 "Posted 1w ago" = Returns (Some 739915, Some 7%Q).
Proof. reflexivity. Qed.

Example parse_1mo : parse_time_ago now_2026 "1mo ago" = Returns (Some 739892, Some 30%Q).
Proof. reflexivity. Qed.

Example parse_2m : parse_time_ago now_2026 "2 m ago" = Returns (Some 739862, Some 60%Q).
Proof. reflexivity. Qed.

Example parse_unknown : parse_time_ago now_2026 "yesterday" = Returns (None, None).
Proof. reflexivity. Qed.

(** The number is the whole run of digits of the first match. *)
Example parse_12d : parse_time_ago now_2026 "12d ago" = Returns (Some 739910, Some 12%Q).
Proof. reflexivity. Qed.

(** A no-break space is white space, an Arabic-Indic digit a digit. *)
Example parse_nbsp : parse_time_ago now_2026 "3 d ago" = Returns (Some 739919, Some 3%Q).
Proof. reflexivity. Qed.

Example parse_arabic_indic :
  parse_time_ago now_2026 "٣d ago" = Returns (Some 739919, Some 3%Q).
Proof. reflexivity. Qed.

(** 5/24 is no float: the age is the float next to it. *)
Example parse_5h :
  parse_time_ago now_2026 "5h ago"
  = Returns (Some 739921, Some (7505999378950827 # 36028797018963968)%Q).
Proof. reflexivity. Qed.

(** At 02:00 on 2026-11-03 the smallest [datetime] lies 17758130 hours
    back; the float quotient by 24 is a little more, and the
    subtraction raises. *)
Example parse_hours_boundary :
  parse_time_ago (now_2026 + 7200000000) "17758130h ago" = Raises
  /\ parse_time_ago (now_2026 + 7200000000) "17758129h ago"
     = Returns (Some 0, Some (6355881941095765 # 8589934592)%Q).
Proof. split; vm_compute; reflexivity. Qed.

(** A numeral of 4301 digits is refused, whatever it is worth. *)
Example int_limit :
  int (List.repeat 48%N 4300 ++ [51%N]) = Raises
  /\ int (List.repeat 48%N 4299 ++ [51%N]) = Returns 3.
Proof. split; vm_compute; reflexivity. Qed.

End ParseTimeFacts.

(* ================================================================== *)
(** ** Every record of a parse carries the tags of its own fields *)

Module ScanFacts.
Import PyStr Freshness Records.

Lemma zapply_make_job_consistent ml now company cells j :
  Zapply.make_job ml now company cells = Returns (Some j) ->
  ZapplyConsistent j /\ Zapply.company j = company.
Proof.
  unfold Zapply.make_job.
  destruct (Zapply.is_empty _ || _); [discriminate|].
  destruct (parse_time_ago now _) as [parsed|]; simpl; [|discriminate].
  intros H. inversion H; subst. unfold ZapplyConsistent. simpl. tauto.
Qed.

(** A step leaves [jobs] alone or appends one consistent record. *)
Lemma zapply_step_jobs hc ml now st line st' :
  Zapply.step hc ml now st line = Returns st' ->
  Zapply.jobs st' = Zapply.jobs st
  \/ exists j, Zapply.jobs st' = Zapply.jobs st ++ [j]
               /\ ZapplyConsistent j
               /\ Zapply.company j = Zapply.current_company st.
Proof.
  unfold Zapply.step.
  repeat match goal with
    | |- context [if ?b then _ else _] => destruct b
    | |- context [match hc ?l with _ => _ end] => destruct (hc l)
    end;
    try (intros H; inversion H; subst; simpl; left; reflexivity).
  destruct (Zapply.make_job ml now _ _) as [[j|]|] eqn:E; simpl;
    intros H; inversion H; subst; simpl.
  - right. exists j. split; [reflexivity|].
    exact (zapply_make_job_consistent _ _ _ _ _ E).
  - left. reflexivity.
Qed.

Lemma zapply_scan_consistent hc ml now lines st st' :
  List.Forall ZapplyConsistent (Zapply.jobs st) ->
  Zapply.scan hc ml now st lines = Returns st' ->
  List.Forall ZapplyConsistent (Zapply.jobs st').
Proof.
  revert st. induction lines as [|line rest IH]; intros st Hst; simpl.
  - intros H. inversion H; subst. exact Hst.
  - destruct (Zapply.step hc ml now st line) as [st1|] eqn:E; simpl; [|discriminate].
    apply IH. apply zapply_step_jobs in E as [-> | (j & -> & Hj & _)]; [exact Hst|].
    apply List.Forall_app. split; [exact Hst|]. constructor; [exact Hj|constructor].
Qed.

(** Every record [scrape_zapply_github] returns is consistent. *)
Lemma zapply_scrape_consistent hc ml now response js j :
  Zapply.scrape_zapply_github hc ml now response = Some js ->
  In j js -> ZapplyConsistent j.
Proof.
  unfold Zapply.scrape_zapply_github.
  destruct response as [markdown|]; [|discriminate].
  destruct (Zapply.scan _ _ _ _ _) as [st|] eqn:E; [|discriminate].
  destruct (_ =? _)%nat; [discriminate|].
  intros H Hin. inversion H; subst.
  apply zapply_scan_consistent in E; [|constructor].
  rewrite List.Forall_forall in E. exact (E j Hin).
Qed.

Lemma swe_make_job_consistent ml now archived parts j :
  Swe2026.make_job ml now archived parts = Returns j -> SweConsistent j.
Proof.
  unfold Swe2026.make_job.
  destruct (parse_time_ago now _) as [parsed|]; simpl; [|discriminate].
  intros H. inversion H; subst. unfold SweConsistent. simpl. tauto.
Qed.

Lemma swe_step_consistent ml now st line :
  List.Forall SweConsistent (snd st) ->
  List.Forall SweConsistent (snd (Swe2026.step ml now st line)).
Proof.
  destruct st as [archived jobs]. unfold Swe2026.step. simpl. intros Hst.
  repeat match goal with
    | |- context [if ?b then _ else _] => destruct b
    end; try exact Hst.
  destruct (Swe2026.make_job ml now archived _) as [j|] eqn:E; simpl; [|exact Hst].
  apply List.Forall_app. split; [exact Hst|].
  constructor; [exact (swe_make_job_consistent _ _ _ _ _ E)|constructor].
Qed.

Lemma swe_fold_consistent ml now lines st :
  List.Forall SweConsistent (snd st) ->
  List.Forall SweConsistent (snd (List.fold_left (Swe2026.step ml now) lines st)).
Proof.
  revert st. induction lines as [|line rest IH]; intros st Hst; simpl; [exact Hst|].
  apply IH, swe_step_consistent, Hst.
Qed.

(** Every record [scrape_zapply_swe_2026] returns is consistent. *)
Lemma swe_scrape_consistent ml now response js j :
  Swe2026.scrape_zapply_swe_2026 ml now response = Some js ->
  In j js -> SweConsistent j.
Proof.
  unfold Swe2026.scrape_zapply_swe_2026.
  destruct response as [markdown|]; [|discriminate].
  pose proof (swe_fold_consistent ml now (split "010" markdown) (false, [])
                (List.Forall_nil _)) as Hall.
  destruct (snd _) as [|j0 js0]; [discriminate|].
  intros H Hin. inversion H; subst.
  rewrite List.Forall_forall in Hall. exact (Hall j Hin).
Qed.

Lemma simplify_parse_rows_In now rows js j :
  Simplify.parse_rows now rows = Returns js ->
  In j js ->
  exists cells, In cells rows /\ Simplify.make_job now cells = Returns (Some j).
Proof.
  revert js. induction rows as [|cells rows IH]; intros js H Hin; simpl in H.
  - inversion H; subst. contradiction.
  - destruct (Simplify.make_job now cells) as [made|] eqn:M; [|discriminate].
    cbn [obind] in H.
    destruct (Simplify.parse_rows now rows) as [js'|]; [|discriminate].
    cbn [obind] in H. inversion H; subst. clear H.
    destruct made as [j'|].
    + destruct Hin as [<-|Hin].
      * exists cells. split; [now left|exact M].
      * destruct (IH js' eq_refl Hin) as (c & Hc & E).
        exists c. split; [now right|exact E].
    + destruct (IH js' eq_refl Hin) as (c & Hc & E).
      exists c. split; [now right|exact E].
Qed.

(** Every record of the SimplifyJobs parser comes from a table row. *)
Lemma simplify_scrape_rows now response soup js j :
  Simplify.scrape_simplify_jobs_github now response soup = Some js ->
  In j js -> exists cells, Simplify.make_job now cells = Returns (Some j).
Proof.
  unfold Simplify.scrape_simplify_jobs_github.
  destruct response as [markdown|]; [|discriminate].
  destruct (soup markdown) as [[|swe_table rest]|]; try discriminate.
  destruct (Simplify.parse_rows now _) as [jobs|] eqn:P; [|discriminate].
  destruct (_ =? _)%nat; [discriminate|].
  intros H Hin. inversion H; subst.
  destruct (simplify_parse_rows_In _ _ _ _ P Hin) as (cells & _ & E).
  now exists cells.
Qed.

Lemma simplify_make_job_fields now cells j :
  Simplify.make_job now cells = Returns (Some j) ->
  Simplify.job_type j = "fulltime"
  /\ exists role, List.nth_error cells 1 = Some role
       /\ Simplify.is_faang j = contains Simplify.fire (Simplify.text role).
Proof.
  unfold Simplify.make_job.
  destruct (length cells <? 5)%nat eqn:L; [discriminate|].
  destruct (Zapply.is_empty _ || _); [discriminate|].
  destruct (Simplify.age_days_of _) as [a|]; [|discriminate]. cbn [obind].
  intros H. inversion H; subst. simpl. split; [reflexivity|].
  apply Nat.ltb_ge in L.
  destruct cells as [|c0 [|c1 cs]]; simpl in L; try lia.
  exists c1. split; reflexivity.
Qed.

End ScanFacts.

(* ================================================================== *)
(** ** Job type and company classification *)

Module ClassificationFacts.
Import PyStr Freshness Records PyStrFacts ScanFacts.

Lemma job_type_of_cases (role : string) :
  let t := lower role in
  let internish :=
    Substring "intern" t \/ Substring "co-op" t \/ Substring "coop" t in
  (internish -> Zapply.job_type_of role = "internship")
  /\ (~ internish -> Substring "contract" t -> Zapply.job_type_of role = "contract")
  /\ (~ internish -> ~ Substring "contract" t -> Zapply.job_type_of role = "fulltime").
Proof.
  cbv zeta. unfold Zapply.job_type_of.
  destruct (contains "intern" (lower role)) eqn:E1;
    [apply contains_spec in E1 | apply contains_false in E1];
  (destruct (contains "co-op" (lower role)) eqn:E2;
    [apply contains_spec in E2 | apply contains_false in E2]);
  (destruct (contains "coop" (lower role)) eqn:E3;
    [apply contains_spec in E3 | apply contains_false in E3]);
  (destruct (contains "contract" (lower role)) eqn:E4;
    [apply contains_spec in E4 | apply contains_false in E4]);
  simpl; repeat split; intros; try reflexivity; exfalso; tauto.
Qed.

(** C4, as the code has it.  In the Zapply parser the job type of every
    record follows the lower-cased title: internship when it contains
    "intern", "co-op" or "coop"; otherwise contract when it contains
    "contract"; otherwise fulltime.  In the SimplifyJobs parser the job
    type of every record is fulltime, whatever the title. *)
Theorem job_type_per_source :
  (forall hc ml now response js j,
      Zapply.scrape_zapply_github hc ml now response = Some js ->
      In j js ->
      let t := lower (Zapply.title j) in
      let internish :=
        Substring "intern" t \/ Substring "co-op" t \/ Substring "coop" t in
      (internish -> Zapply.job_type j = "internship")
      /\ (~ internish -> Substring "contract" t -> Zapply.job_type j = "contract")
      /\ (~ internish -> ~ Substring "contract" t -> Zapply.job_type j = "fulltime"))
  /\ (forall now response soup js j,
      Simplify.scrape_simplify_jobs_github now response soup = Some js ->
      In j js ->
      Simplify.job_type j = "fulltime").
Proof.
  split.
  - intros hc ml now response js j Hs Hin.
    destruct (zapply_scrape_consistent _ _ _ _ _ _ Hs Hin) as (-> & _).
    apply job_type_of_cases.
  - intros now response soup js j Hs Hin.
    destruct (simplify_scrape_rows _ _ _ _ _ Hs Hin) as (cells & E).
    exact (proj1 (simplify_make_job_fields _ _ _ E)).
Qed.

Lemma job_type_per_source_witness :
  exists j, coop_jobs = Some [j] /\ Zapply.job_type j = "internship".
Proof.
  eexists. split; [reflexivity|].
  refine (proj1 (proj1 job_type_per_source no_heading no_link
                   TimePattern.now_2026 (Returns coop_page) _ _ eq_refl
                   (or_introl eq_refl)) _).
  right. right. apply contains_spec. reflexivity.
Defined.

(** C4 fails as stated.  The Zapply title "Coop Developer" contains
    neither "intern" nor "co-op" nor "contract", yet its record is an
    internship, not fulltime; and the SimplifyJobs title
    "Software Engineer Intern" contains "intern", yet its record is
    fulltime. *)
Lemma job_type_not_keyword_only :
  (exists j, coop_jobs = Some [j]
             /\ Zapply.title j = "Coop Developer"
             /\ ~ Substring "intern" (lower (Zapply.title j))
             /\ ~ Substring "co-op" (lower (Zapply.title j))
             /\ ~ Substring "contract" (lower (Zapply.title j))
             /\ Zapply.job_type j = "internship"
             /\ Zapply.job_type j <> "fulltime")
  /\ (exists j, table_jobs google_table = Some [j]
                /\ Simplify.title j = "Software Engineer Intern"
                /\ Substring "intern" (lower (Simplify.title j))
                /\ Simplify.job_type j = "fulltime"
                /\ Simplify.job_type j <> "internship").
Proof.
  split; eexists; (split; [reflexivity|]); simpl.
  - repeat split; try (apply contains_false; reflexivity); discriminate.
  - repeat split; try (apply contains_spec; reflexivity); discriminate.
Qed.

(** C5, as the code has it.  In the Zapply parser [is_faang] holds
    exactly when the lower-cased company contains one of seven entries;
    in the SWE-2026 parser exactly when it contains one of six entries,
    the same without "microsoft"; in the SimplifyJobs parser exactly
    when the role cell of the row carries the fire marker. *)
Theorem is_faang_per_source :
  (forall hc ml now response js j,
      Zapply.scrape_zapply_github hc ml now response = Some js ->
      In j js ->
      (Zapply.is_faang j = true <->
       exists e, In e Zapply.faang_companies
                 /\ Substring e (lower (Zapply.company j))))
  /\ length Zapply.faang_companies = 7%nat
  /\ (forall ml now response js j,
      Swe2026.scrape_zapply_swe_2026 ml now response = Some js ->
      In j js ->
      (Swe2026.is_faang j = true <->
       exists e, In e Swe2026.faang_companies
                 /\ Substring e (lower (Swe2026.company j))))
  /\ (forall e, In e Swe2026.faang_companies <->
                In e Zapply.faang_companies /\ e <> "microsoft")
  /\ (forall now response soup js j,
      Simplify.scrape_simplify_jobs_github now response soup = Some js ->
      In j js ->
      exists cells role,
        Simplify.make_job now cells = Returns (Some j)
        /\ List.nth_error cells 1 = Some role
        /\ (Simplify.is_faang j = true <->
            Substring Simplify.fire (Simplify.text role))).
Proof.
  split; [|split; [reflexivity|split; [|split]]].
  - intros hc ml now response js j Hs Hin.
    destruct (zapply_scrape_consistent _ _ _ _ _ _ Hs Hin) as (_ & -> & _).
    apply any_contains_spec.
  - intros ml now response js j Hs Hin.
    destruct (swe_scrape_consistent _ _ _ _ _ Hs Hin) as (-> & _).
    apply any_contains_spec.
  - intros e. unfold Swe2026.faang_companies, Zapply.faang_companies. simpl.
    split.
    + intros H. repeat destruct H as [<-|H]; try contradiction;
        (split; [tauto|discriminate]).
    + intros [H Hne]. repeat destruct H as [<-|H]; try contradiction; tauto.
  - intros now response soup js j Hs Hin.
    destruct (simplify_scrape_rows _ _ _ _ _ Hs Hin) as (cells & E).
    destruct (simplify_make_job_fields _ _ _ E) as (_ & role & Hr & ->).
    exists cells, role. repeat split; try assumption; apply contains_spec.
Qed.

Lemma is_faang_per_source_witness :
  exists j, microsoft_jobs = Some [j] /\ Swe2026.is_faang j = false.
Proof.
  eexists. split; [reflexivity|].
  apply not_true_iff_false. intros H.
  apply (proj1 (proj1 (proj2 (proj2 is_faang_per_source)) no_link
                  TimePattern.now_2026 (Returns microsoft_page) _ _ eq_refl
                  (or_introl eq_refl))) in H.
  destruct H as (e & He & Hsub). apply contains_spec in Hsub.
  simpl in He. repeat destruct He as [<-|He]; try discriminate Hsub. contradiction.
Defined.

(** C5 fails as stated.  The SWE-2026 company "Microsoft" contains the
    entry "microsoft" of the seven-entry set and its record has
    [is_faang] false; the SimplifyJobs company "Google" contains
    "google" and its record has [is_faang] false. *)
Lemma is_faang_not_uniform :
  (exists j, microsoft_jobs = Some [j]
             /\ In "microsoft" Zapply.faang_companies
             /\ Substring "microsoft" (lower (Swe2026.company j))
             /\ Swe2026.is_faang j = false)
  /\ (exists j, table_jobs google_table = Some [j]
                /\ In "google" Zapply.faang_companies
                /\ Substring "google" (lower (Simplify.company j))
                /\ Simplify.is_faang j = false).
Proof.
  split; eexists; (split; [reflexivity|]); simpl;
    repeat split; try (apply contains_spec; reflexivity); tauto.
Qed.

(** [str.lower] turns the Kelvin sign into "k": the company of
    [kelvin_page] contains "facebook" once lower-cased. *)
Example kelvin_sign_is_faang :
  exists j, Swe2026.scrape_zapply_swe_2026 no_link TimePattern.now_2026
              (Returns Samples.kelvin_page) = Some [j]
            /\ Substring "facebook" (lower (Swe2026.company j))
            /\ Swe2026.is_faang j = true.
Proof.
  eexists. split; [reflexivity|]. split; [|reflexivity].
  apply contains_spec. reflexivity.
Qed.

End ClassificationFacts.

(* ================================================================== *)
(** ** Tier-1 tagging and the names not to be marked *)

Module TierFacts.
Import PyStr Freshness Records PyStrFacts ScanFacts.

Lemma x_is_tier1_entry : In "x" Zapply.tier1_companies.
Proof. unfold Zapply.tier1_companies. simpl. tauto. Qed.

(** C10. In the Zapply parser every record whose lower-cased company
    contains the letter "x" is tagged Tier-1, "x" being an entry of the
    Tier-1 list that is tested by containment. *)
Theorem company_with_x_is_tier1 hc ml now response js j :
  Zapply.scrape_zapply_github hc ml now response = Some js ->
  In j js ->
  Substring "x" (lower (Zapply.company j)) ->
  Zapply.is_tier1 j = true /\ In "x" Zapply.tier1_companies.
Proof.
  intros Hs Hin Hx. split; [|exact x_is_tier1_entry].
  destruct (zapply_scrape_consistent _ _ _ _ _ _ Hs Hin) as (_ & _ & -> & _).
  apply any_contains_spec. exists "x". split; [exact x_is_tier1_entry|exact Hx].
Qed.

Lemma company_with_x_is_tier1_witness :
  exists j, company_jobs "FedEx" = Some [j]
            /\ Zapply.company j = "FedEx"
            /\ Zapply.is_tier1 j = true.
Proof.
  run_parser (company_jobs "FedEx").
  split; [exact Parsed|]. split; [reflexivity|].
  refine (proj1 (company_with_x_is_tier1 (heading_of "FedEx") no_link
                   TimePattern.now_2026 (Returns (company_page "FedEx")) _ _
                   Parsed (or_introl eq_refl) _)).
  apply contains_spec. reflexivity.
Defined.

Example equifax_is_tier1 :
  exists j, company_jobs "Equifax" = Some [j] /\ Zapply.is_tier1 j = true.
Proof. run_parser (company_jobs "Equifax"). split; [exact Parsed|reflexivity]. Qed.









(** The script has the twelve names in a comment only: the outcome
    above comes from none of them containing an entry of either list.
    A heading that adds to a listed name is classified by what it adds:
    "PwC Mexico" contains "x" and is marked Tier-1. *)
Example pwc_mexico_is_tier1 :
  exists j, company_jobs "PwC Mexico" = Some [j]
            /\ Zapply.company j = "PwC Mexico"
            /\ Zapply.is_faang j = false /\ Zapply.is_tier1 j = true.
Proof.
  run_parser (company_jobs "PwC Mexico").
  split; [exact Parsed|]. repeat split.
Qed.

End TierFacts.

(* ================================================================== *)
(** ** The snapshot writers *)

Module StoreFacts.
Import Store.

Section Rows.
Context {row : Type}.
Implicit Types (d : gmap string (list row)) (c : connection row)
               (t : string) (f : @faults) (batch : list row).

Lemma preserves_ret {A} (P : connection row -> Prop) (a : A) : preserves P (ret a).
Proof. intros c H. exact H. Qed.

Lemma preserves_bind {A B} (P : connection row -> Prop) (m : DB A) (k : A -> DB B) :
  preserves P m -> (forall a, preserves P (k a)) -> preserves P (bind m k).
Proof.
  intros Hm Hk c Hc. unfold bind. specialize (Hm c Hc).
  destruct (m c) as [[a|] c']; simpl in *; [apply Hk, Hm|exact Hm].
Qed.

Lemma preserves_guard (P : connection row -> Prop) f op (m : DB unit) :
  preserves P m -> preserves P (guard f op m).
Proof.
  intros Hm c Hc. unfold guard. destruct (f op); [exact Hc|apply Hm, Hc].
Qed.

Lemma others_create t d : preserves (others_kept t d) (create_table t).
Proof.
  intros c Hc t' Hne. destruct (Hc t' Hne) as [Hk Hv].
  unfold create_table, view in *. simpl.
  destruct (pending c) as [v|]; simpl in *.
  - split; [exact Hk|]. destruct (v !! t); [exact Hv|].
    now rewrite lookup_insert_ne.
  - destruct (committed c !! t); simpl; [tauto|].
    now rewrite lookup_insert_ne.
Qed.

Lemma others_delete t d : preserves (others_kept t d) (delete_from t).
Proof.
  intros c Hc t' Hne. destruct (Hc t' Hne) as [Hk Hv].
  unfold delete_from. destruct (view c !! t); simpl; [|tauto].
  split; [exact Hk|]. unfold view. simpl. now rewrite lookup_insert_ne.
Qed.

Lemma others_insert t d batch : preserves (others_kept t d) (insert_into t batch).
Proof.
  intros c Hc t' Hne. destruct (Hc t' Hne) as [Hk Hv].
  unfold insert_into. destruct (view c !! t); simpl; [|tauto].
  split; [exact Hk|]. unfold view. simpl. now rewrite lookup_insert_ne.
Qed.

Lemma others_commit t d : preserves (others_kept t d) commit.
Proof. intros c Hc t' Hne. destruct (Hc t' Hne) as [Hk Hv]. simpl. tauto. Qed.

Lemma others_rollback t d : preserves (others_kept t d) rollback.
Proof. intros c Hc t' Hne. destruct (Hc t' Hne) as [Hk Hv]. simpl. tauto. Qed.

Lemma others_count t d : preserves (others_kept t d) (count t).
Proof.
  intros c Hc. unfold count. destruct (view c !! t); exact Hc.
Qed.

Lemma others_to_sql f t d batch :
  preserves (others_kept t d) (to_sql_append f t batch).
Proof.
  intros c Hc. unfold to_sql_append.
  destruct (f OpInsert); [apply others_rollback, Hc|].
  pose proof (others_insert t d batch c Hc) as Hi.
  destruct (insert_into t batch c) as [[[]|] c']; simpl in *.
  - apply others_commit, Hi.
  - apply others_rollback, Hi.
Qed.

Lemma others_write_snapshot f t d batch :
  preserves (others_kept t d) (write_snapshot f t batch).
Proof.
  unfold write_snapshot.
  repeat (apply preserves_bind; [|intros ?]);
    try apply preserves_guard;
    auto using others_create, others_delete, others_to_sql, others_commit,
      preserves_ret.
  intros c Hc. destruct (f OpCount); [exact Hc|apply others_count, Hc].
Qed.

Lemma others_insert_each f t d jobs :
  preserves (others_kept t d) (insert_each f t jobs).
Proof.
  induction jobs as [|job rest IH]; simpl; [apply preserves_ret|].
  apply preserves_bind; [|intros _; exact IH].
  apply preserves_guard, others_insert.
Qed.

Lemma others_fresh t d :
  others_kept t d {| committed := d; pending := None |}.
Proof. intros t' _. split; reflexivity. Qed.

(** A writer touches no table but its own, whatever fails. *)
Lemma save_to_database_others t f jobs_df d t' :
  t' <> t -> snd (save_to_database t f jobs_df d) !! t' = d !! t'.
Proof.
  intros Hne. unfold save_to_database.
  destruct jobs_df as [batch|]; [|reflexivity].
  destruct (length batch =? 0)%nat; [reflexivity|].
  destruct (f OpConnect); [reflexivity|].
  pose proof (others_write_snapshot f t d batch _ (others_fresh t d)) as H.
  destruct (write_snapshot f t batch _) as [[n|] c]; simpl in *;
    exact (proj1 (H t' Hne)).
Qed.

Lemma save_to_database_swe_others t f jobs d t' :
  t' <> t -> snd (save_to_database_swe t f jobs d) !! t' = d !! t'.
Proof.
  intros Hne. unfold save_to_database_swe.
  destruct (f OpConnect); [reflexivity|].
  match goal with
  | |- context [let '(r, c) := ?run ?c0 in _] =>
      assert (Hp : preserves (others_kept t d) run);
      [|pose proof (Hp c0 (others_fresh t d)) as H;
        destruct (run c0) as [r c]; exact (proj1 (H t' Hne))]
  end.
  repeat (apply preserves_bind; [|intros ?]);
    try apply preserves_guard;
    auto using others_create, others_delete, others_insert_each, others_commit,
      preserves_ret.
Qed.

(** A run of the [try] block in which no call raises leaves exactly the
    batch in the table and counts it. *)
Lemma write_snapshot_no_raise f t batch d :
  f OpCreate = false -> f OpDelete = false -> f OpInsert = false ->
  f OpCommit = false -> f OpCount = false -> f OpClose = false ->
  write_snapshot f t batch {| committed := d; pending := None |}
  = (Returns (length batch), {| committed := <[t := batch]> d; pending := None |}).
Proof.
  intros H1 H2 H3 H4 H5 H6. unfold write_snapshot.
  unfold bind at 1. unfold guard at 1. rewrite H1.
  unfold create_table. simpl.
  destruct (d !! t) as [rows|] eqn:E.
  - unfold bind at 1. unfold guard at 1. rewrite H2.
    unfold delete_from, view. simpl. rewrite E.
    unfold bind at 1. unfold to_sql_append. rewrite H3.
    unfold insert_into, view. simpl. rewrite lookup_insert_eq. simpl.
    unfold bind at 1. unfold guard at 1. rewrite H4. simpl.
    unfold bind at 1. rewrite H5. unfold count, view. simpl.
    rewrite insert_insert_eq, lookup_insert_eq.
    unfold bind, guard. rewrite H6. reflexivity.
  - unfold bind at 1. unfold guard at 1. rewrite H2.
    unfold delete_from, view. simpl. rewrite lookup_insert_eq.
    unfold bind at 1. unfold to_sql_append. rewrite H3.
    unfold insert_into, view. simpl. rewrite lookup_insert_eq. simpl.
    unfold bind at 1. unfold guard at 1. rewrite H4. simpl.
    unfold bind at 1. rewrite H5. unfold count, view. simpl.
    rewrite !insert_insert_eq, lookup_insert_eq.
    unfold bind, guard. rewrite H6. reflexivity.
Qed.

Lemma bind_returns {A B} (m : DB A) (k : A -> DB B) c b c' :
  bind m k c = (Returns b, c') ->
  exists a c1, m c = (Returns a, c1) /\ k a c1 = (Returns b, c').
Proof.
  unfold bind. destruct (m c) as [[a|] c1]; [|discriminate].
  intros H. now exists a, c1.
Qed.

Lemma guard_returns f op (m : DB unit) c u c' :
  guard f op m c = (Returns u, c') -> f op = false /\ m c = (Returns u, c').
Proof. unfold guard. destruct (f op); [discriminate|]. now split. Qed.

Lemma to_sql_returns f t batch c u c' :
  to_sql_append f t batch c = (Returns u, c') -> f OpInsert = false.
Proof. unfold to_sql_append. now destruct (f OpInsert). Qed.

(** When the [try] block ends without an exception, none of its calls
    raised. *)
Lemma write_snapshot_returns f t batch c n c' :
  write_snapshot f t batch c = (Returns n, c') ->
  f OpCreate = false /\ f OpDelete = false /\ f OpInsert = false
  /\ f OpCommit = false /\ f OpCount = false /\ f OpClose = false.
Proof.
  unfold write_snapshot. intros H.
  apply bind_returns in H as (? & c1 & H1 & H). apply guard_returns in H1 as [F1 _].
  apply bind_returns in H as (? & c2 & H2 & H). apply guard_returns in H2 as [F2 _].
  apply bind_returns in H as (? & c3 & H3 & H). apply to_sql_returns in H3 as F3.
  apply bind_returns in H as (? & c4 & H4 & H). apply guard_returns in H4 as [F4 _].
  apply bind_returns in H as (? & c5 & H5 & H).
  apply bind_returns in H as (? & c6 & H6 & H). apply guard_returns in H6 as [F6 _].
  repeat split; try assumption. now destruct (f OpCount).
Qed.

(** A write that reports [Saved] had a non-empty batch, counted it, and
    left exactly that batch in the table. *)
Lemma save_to_database_saved t f batch d n d' :
  save_to_database t f (Some batch) d = (Saved n, d') ->
  batch <> [] /\ n = length batch /\ d' = <[t := batch]> d.
Proof.
  unfold save_to_database.
  destruct batch as [|r batch]; [discriminate|]. simpl.
  destruct (f OpConnect); [discriminate|].
  destruct (write_snapshot f t (r :: batch) _) as [[m|] c] eqn:E; [|discriminate].
  intros H. inversion H; subst. clear H.
  destruct (write_snapshot_returns _ _ _ _ _ _ E) as (F1 & F2 & F3 & F4 & F5 & F6).
  rewrite (write_snapshot_no_raise f t (r :: batch) d F1 F2 F3 F4 F5 F6) in E.
  inversion E; subst. repeat split. discriminate.
Qed.

(** With no failing call and a non-empty batch the write reports [Saved]. *)
Lemma save_to_database_no_faults t batch d :
  batch <> [] ->
  save_to_database t no_faults (Some batch) d
  = (Saved (length batch), <[t := batch]> d).
Proof.
  intros Hne. unfold save_to_database.
  destruct batch as [|r batch]; [contradiction|]. simpl (length _ =? 0)%nat. cbv iota.
  change (no_faults OpConnect) with false. cbv iota.
  now rewrite write_snapshot_no_raise.
Qed.

Lemma insert_each_returns f t (jobs : list row) c u c' :
  insert_each f t jobs c = (Returns u, c') -> jobs = [] \/ f OpInsert = false.
Proof.
  destruct jobs as [|job rest]; [now left|]. simpl. intros H.
  apply bind_returns in H as (? & c1 & H1 & _).
  apply guard_returns in H1 as [F _]. now right.
Qed.

Lemma insert_each_appends f t (jobs : list row) (k v : gmap string (list row))
    (rows : list row) :
  v !! t = Some rows -> (jobs = [] \/ f OpInsert = false) ->
  insert_each f t jobs {| committed := k; pending := Some v |}
  = (Returns tt, {| committed := k; pending := Some (<[t := rows ++ jobs]> v) |}).
Proof.
  revert v rows. induction jobs as [|job rest IH]; intros v rows Hv Hf; simpl.
  - rewrite app_nil_r, (insert_id _ _ _ Hv). reflexivity.
  - destruct Hf as [Hf|Hf]; [discriminate|].
    unfold bind at 1, guard. rewrite Hf. unfold insert_into, view. simpl.
    rewrite Hv. rewrite (IH _ (rows ++ [job])); [|apply lookup_insert_eq|now right].
    rewrite insert_insert_eq, <- (List.app_assoc rows [job] rest). reflexivity.
Qed.

(** The SWE-2026 writer, when it returns, left exactly the batch. *)
Lemma save_to_database_swe_returns t f (jobs : list row) d u d' :
  save_to_database_swe t f jobs d = (Returns u, d') -> d' = <[t := jobs]> d.
Proof.
  unfold save_to_database_swe. destruct (f OpConnect); [discriminate|].
  match goal with
  | |- context [let '(r, c) := ?run ?c0 in _] =>
      destruct (run c0) as [r c] eqn:E
  end.
  intros H. inversion H; subst. clear H.
  apply bind_returns in E as (? & c1 & H1 & E). apply guard_returns in H1 as [_ H1].
  apply bind_returns in E as (? & c2 & H2 & E). apply guard_returns in H2 as [_ H2].
  apply bind_returns in E as (? & c3 & H3 & E).
  apply bind_returns in E as (? & c4 & H4 & E). apply guard_returns in H4 as [_ H4].
  apply guard_returns in E as [_ E].
  pose proof (insert_each_returns _ _ _ _ _ _ H3) as Hf.
  unfold create_table in H1. simpl in H1. inversion H1; subst. clear H1.
  unfold delete_from, view in H2. simpl in H2.
  destruct (d !! t) as [rows|] eqn:Ed; simpl in H2.
  - rewrite Ed in H2. inversion H2; subst. clear H2.
    rewrite (insert_each_appends f t jobs _ _ []) in H3;
      [|apply lookup_insert_eq|exact Hf].
    inversion H3; subst. inversion H4; subst. inversion E; subst.
    unfold after, view. simpl. now rewrite insert_insert_eq.
  - rewrite lookup_insert_eq in H2. inversion H2; subst. clear H2.
    rewrite (insert_each_appends f t jobs _ _ []) in H3;
      [|apply lookup_insert_eq|exact Hf].
    inversion H3; subst. inversion H4; subst. inversion E; subst.
    unfold after, view. simpl. now rewrite !insert_insert_eq.
Qed.

(** C6. For each of the three writers (tables [github_jobs],
    [zapply_jobs], [zapply_swe_2026_jobs]): after two consecutive
    successful writes of the batches [B1] then [B2] the table holds
    exactly the rows of [B2], so a row of [B1] that is not in [B2] is
    gone; the batches need not even be disjoint. *)
Theorem snapshot_replace t d B1 B2 :
  (forall f1 f2 n1 n2 d1 d2,
      save_to_database t f1 (Some B1) d = (Saved n1, d1) ->
      save_to_database t f2 (Some B2) d1 = (Saved n2, d2) ->
      d2 !! t = Some B2
      /\ n2 = length B2
      /\ forall r, In r B1 -> ~ In r B2 -> forall rows, d2 !! t = Some rows -> ~ In r rows)
  /\ (forall f1 f2 u1 u2 d1 d2,
      save_to_database_swe t f1 B1 d = (Returns u1, d1) ->
      save_to_database_swe t f2 B2 d1 = (Returns u2, d2) ->
      d2 !! t = Some B2
      /\ forall r, In r B1 -> ~ In r B2 -> forall rows, d2 !! t = Some rows -> ~ In r rows).
Proof.
  split.
  - intros f1 f2 n1 n2 d1 d2 _ H2.
    apply save_to_database_saved in H2 as (_ & -> & ->).
    rewrite lookup_insert_eq. repeat split.
    intros r _ Hn rows Hr. now inversion Hr; subst.
  - intros f1 f2 u1 u2 d1 d2 _ H2.
    apply save_to_database_swe_returns in H2 as ->.
    rewrite lookup_insert_eq. split; [reflexivity|].
    intros r _ Hn rows Hr. now inversion Hr; subst.
Qed.

End Rows.
End StoreFacts.

Module StoreExamples.
Import Store StoreFacts.

Lemma snapshot_replace_witness :
  exists d1 d2 : gmap string (list nat),
    save_to_database zapply_jobs no_faults (Some [1; 2]%nat) ∅ = (Saved 2, d1)
    /\ save_to_database zapply_jobs no_faults (Some [3]%nat) d1 = (Saved 1, d2)
    /\ d2 !! zapply_jobs = Some [3]%nat.
Proof.
  eexists. eexists.
  split; [apply save_to_database_no_faults; discriminate|].
  split; [apply save_to_database_no_faults; discriminate|].
  refine (proj1 (proj1 (snapshot_replace zapply_jobs ∅ [1; 2]%nat [3]%nat)
                   no_faults no_faults _ _ _ _ _ _)).
  - apply save_to_database_no_faults. discriminate.
  - apply save_to_database_no_faults. discriminate.
Defined.

End StoreExamples.

(* ================================================================== *)
(** ** The orchestrator *)

Module MasterFacts.
Import Store StoreFacts Master Records.

Lemma tables_differ : github_jobs <> zapply_jobs.
Proof. discriminate. Qed.

(** [run_scraper] reports success exactly for a non-empty frame. *)
Lemma run_scraper_success call elapsed :
  get_success (run_scraper call elapsed) = true
  <-> exists df, call = Returns (Some df) /\ df <> [].
Proof.
  unfold run_scraper. destruct call as [[[|r df]|]|]; simpl; split;
    try discriminate; try (intros (df' & E & Hne); inversion E; subst;
                           try contradiction; discriminate).
  - intros _. exists (r :: df). split; [reflexivity|discriminate].
  - reflexivity.
Qed.

(** A block of a failed source records a failure and writes nothing. *)
Lemma run_source_failed table s d :
  failed s ->
  exists r, run_source table s d = Returns (r, d) /\ get_success r = false.
Proof.
  unfold failed, run_source. intros H.
  destruct (import_error s); [eexists; split; reflexivity|].
  destruct H as [H|[H|[H|H]]]; [discriminate| | |];
    rewrite H; simpl; eexists; split; reflexivity.
Qed.

(** A block of a successful source records the success and calls the
    writer, whose own outcome is not recorded. *)
Lemma run_source_succeeded table s d df :
  succeeded s df ->
  run_source table s d
  = Returns (run_scraper (call s) (elapsed s),
             snd (save_to_database table (save_faults s) (Some df) d))
  /\ get_success (run_scraper (call s) (elapsed s)) = true
  /\ get_jobs (run_scraper (call s) (elapsed s)) = length df
  /\ get_time (run_scraper (call s) (elapsed s)) = elapsed s.
Proof.
  intros (Hi & Hc & Hne). unfold run_source. rewrite Hi, Hc.
  destruct df as [|r df]; [contradiction|]. simpl. repeat split.
Qed.

Lemma failed_or_succeeded s : failed s \/ exists df, succeeded s df.
Proof.
  unfold failed, succeeded.
  destruct (import_error s); [left; now left|].
  destruct (call s) as [[[|r df]|]|]; try (left; tauto).
  right. exists (r :: df). repeat split. discriminate.
Qed.

Lemma failed_not_succeeded s df : failed s -> ~ succeeded s df.
Proof.
  unfold failed, succeeded. intros H (Hi & Hc & Hne).
  destruct H as [H|[H|[H|H]]]; congruence.
Qed.

(** A block never raises, records the source's outcome, and touches no
    table but its own. *)
Lemma run_source_returns table s d :
  exists r d',
    run_source table s d = Returns (r, d')
    /\ (forall t', t' <> table -> d' !! t' = d !! t')
    /\ (failed s -> d' = d /\ get_success r = false)
    /\ (forall df, succeeded s df ->
          get_success r = true /\ get_jobs r = length df /\ get_time r = elapsed s
          /\ d' = snd (save_to_database table (save_faults s) (Some df) d)).
Proof.
  destruct (failed_or_succeeded s) as [Hf|(df & Hs)].
  - destruct (run_source_failed table s d Hf) as (r & E & Hr).
    exists r, d. split; [exact E|]. split; [reflexivity|]. split; [tauto|].
    intros df Hs. destruct (failed_not_succeeded _ _ Hf Hs).
  - destruct (run_source_succeeded table s d df Hs) as (E & H1 & H2 & H3).
    eexists. eexists. split; [exact E|].
    split; [intros t' Hne; now apply save_to_database_others|].
    split; [intros Hf; destruct (failed_not_succeeded _ _ Hf Hs)|].
    intros df' Hs'. destruct Hs as (_ & Hc & _), Hs' as (_ & Hc' & _).
    rewrite Hc in Hc'. inversion Hc'; subst. tauto.
Qed.

(** [main] always returns: its results are those of the two blocks, in
    order, and its summary is printed from them. *)
Lemma main_returns w d :
  exists r1 d1 r2 d2,
    run_source github_jobs (simplify w) d = Returns (r1, d1)
    /\ run_source zapply_jobs (zapply w) d1 = Returns (r2, d2)
    /\ main w d
       = Returns ([("simplify", r1); ("zapply", r2)],
                  summarize [("simplify", r1); ("zapply", r2)] (check_fails w) d2,
                  d2).
Proof.
  destruct (run_source_returns github_jobs (simplify w) d) as (r1 & d1 & E1 & _).
  destruct (run_source_returns zapply_jobs (zapply w) d1) as (r2 & d2 & E2 & _).
  exists r1, d1, r2, d2. split; [exact E1|]. split; [exact E2|].
  unfold main. rewrite E1. simpl. rewrite E2. reflexivity.
Qed.

(** C7. A source whose run fails before a write leaves its table
    unchanged.  A failed request, a failed parse and an empty result
    make the scraper return [None]; the orchestrator then records a
    failure and does not call the writer, so after [main] the table of
    the failed source reads as before; and the scripts' own [main] and
    the writers return without touching the database when given [None]
    or an empty batch. *)
Theorem failed_run_keeps_snapshot :
  (forall hc ml now, Zapply.scrape_zapply_github hc ml now Raises = None)
  /\ (forall hc ml now markdown,
        Zapply.scan hc ml now Zapply.initial_state (PyStr.split "010" markdown) = Raises ->
        Zapply.scrape_zapply_github hc ml now (Returns markdown) = None)
  /\ (forall hc ml now markdown st,
        Zapply.scan hc ml now Zapply.initial_state (PyStr.split "010" markdown) = Returns st ->
        Zapply.jobs st = [] ->
        Zapply.scrape_zapply_github hc ml now (Returns markdown) = None)
  /\ (forall now soup, Simplify.scrape_simplify_jobs_github now Raises soup = None)
  /\ (forall now markdown soup,
        soup markdown = Raises \/ soup markdown = Returns [] ->
        Simplify.scrape_simplify_jobs_github now (Returns markdown) soup = None)
  /\ (forall ml now, Swe2026.scrape_zapply_swe_2026 ml now Raises = None)
  /\ (forall s, (exists now soup, call s = simplify_call now Raises soup)
                \/ (exists hc ml now, call s = zapply_call hc ml now Raises) ->
                failed s)
  /\ (forall table s d, failed s ->
        exists r, run_source table s d = Returns (r, d) /\ get_success r = false)
  /\ (forall w d results summ d',
        main w d = Returns (results, summ, d') ->
        (failed (simplify w) -> d' !! github_jobs = d !! github_jobs)
        /\ (failed (zapply w) -> d' !! zapply_jobs = d !! zapply_jobs))
  /\ (forall (t : string) f (d : disk),
        script_main t f None d = d
        /\ script_main t f (Some []) d = d
        /\ save_to_database t f None d = (NoJobsToSave, d)
        /\ save_to_database t f (Some []) d = (NoJobsToSave, d)
        /\ swe_script t f None d = (Returns tt, d)
        /\ swe_script t f (Some []) d = (Returns tt, d)).
Proof.
  repeat match goal with |- _ /\ _ => split end; try reflexivity.
  - intros hc ml now markdown H. unfold Zapply.scrape_zapply_github. now rewrite H.
  - intros hc ml now markdown st H Hj. unfold Zapply.scrape_zapply_github.
    now rewrite H, Hj.
  - intros now markdown soup [H|H]; unfold Simplify.scrape_simplify_jobs_github;
      now rewrite H.
  - intros s [(now & soup & H)|(hc & ml & now & H)]; unfold failed;
      right; right; left; rewrite H; reflexivity.
  - intros table s d. apply run_source_failed.
  - intros w d results summ d' H.
    destruct (main_returns w d) as (r1 & d1 & r2 & d2 & E1 & E2 & E).
    rewrite E in H. inversion H; subst. clear H.
    destruct (run_source_returns github_jobs (simplify w) d)
      as (r1' & d1' & E1' & Ho1 & Hf1 & _).
    rewrite E1' in E1. inversion E1; subst. clear E1.
    destruct (run_source_returns zapply_jobs (zapply w) d1)
      as (r2' & d2' & E2' & Ho2 & Hf2 & _).
    rewrite E2' in E2. inversion E2; subst. clear E2.
    split; intros Hf.
    + destruct (Hf1 Hf) as (-> & _). apply Ho2. exact tables_differ.
    + destruct (Hf2 Hf) as (-> & _). apply Ho1.
      intros E'. symmetry in E'. exact (tables_differ E').
  - intros t f d. repeat split.
Qed.

(** C8, as the code has it.  A persistence error is caught and printed
    inside the writer and never reaches the orchestrator: whatever calls
    of a source's write raise, the summary line of a source whose
    scraper returned rows marks it successful with its row count.  The
    write of a source, failed or not, changes no table but its own. *)
Theorem write_error_not_in_summary (w : world) (d : disk) :
  exists results summ d1 d',
    main w d = Returns (results, summ, d')
    /\ (forall df, succeeded (simplify w) df ->
          In (true, "simplify", length df, elapsed (simplify w)) (breakdown summ))
    /\ (forall df, succeeded (zapply w) df ->
          In (true, "zapply", length df, elapsed (zapply w)) (breakdown summ))
    /\ (forall df, succeeded (simplify w) df ->
          d1 = snd (save_to_database github_jobs (save_faults (simplify w)) (Some df) d))
    /\ (forall df, succeeded (zapply w) df ->
          d' = snd (save_to_database zapply_jobs (save_faults (zapply w)) (Some df) d1))
    /\ (forall t, t <> github_jobs -> d1 !! t = d !! t)
    /\ (forall t, t <> zapply_jobs -> d' !! t = d1 !! t).
Proof.
  destruct (main_returns w d) as (r1 & d1 & r2 & d2 & E1 & E2 & E).
  destruct (run_source_returns github_jobs (simplify w) d)
    as (r1' & d1' & E1' & Ho1 & _ & Hs1).
  rewrite E1' in E1. inversion E1; subst. clear E1.
  destruct (run_source_returns zapply_jobs (zapply w) d1)
    as (r2' & d2' & E2' & Ho2 & _ & Hs2).
  rewrite E2' in E2. inversion E2; subst. clear E2.
  exists [("simplify", r1); ("zapply", r2)],
    (summarize [("simplify", r1); ("zapply", r2)] (check_fails w) d2), d1, d2.
  split; [exact E|]. repeat split.
  - intros df H. destruct (Hs1 df H) as (S1 & S2 & S3 & _).
    unfold summarize. cbn [breakdown List.map fst snd].
    rewrite S1, S2, S3. left. reflexivity.
  - intros df H. destruct (Hs2 df H) as (S1 & S2 & S3 & _).
    unfold summarize. cbn [breakdown List.map fst snd].
    rewrite S1, S2, S3. right. left. reflexivity.
  - intros df H. now destruct (Hs1 df H) as (_ & _ & _ & ->).
  - intros df H. now destruct (Hs2 df H) as (_ & _ & _ & ->).
  - exact Ho1.
  - exact Ho2.
Qed.

(** C8 fails as stated.  SimplifyJobs is scraped (one row) and the
    insert of its write raises, or the creation of its table raises: the
    writer reports the error, the table holds no row, and the summary
    still marks "simplify" successful with one job; the exit code is 0. *)
Lemma write_error_reported_as_success :
  (fst (save_to_database github_jobs insert_raises google_frame ∅) = ErrorSaving
   /\ exists results summ d',
       main (write_failure_world insert_raises) ∅ = Returns (results, summ, d')
       /\ breakdown summ = [(true, "simplify", 1%nat, 2%Q); (false, "zapply", 0%nat, 30%Q)]
       /\ successful summ = 1%nat
       /\ d' !! github_jobs = Some []
       /\ exit_code results = 0)
  /\ (fst (save_to_database github_jobs create_raises google_frame ∅) = ErrorSaving
      /\ exists results summ d',
        main (write_failure_world create_raises) ∅ = Returns (results, summ, d')
        /\ breakdown summ = [(true, "simplify", 1%nat, 2%Q); (false, "zapply", 0%nat, 30%Q)]
        /\ d' !! github_jobs = None
        /\ exit_code results = 0).
Proof.
  split; (split; [reflexivity|]); eexists; eexists; eexists;
    (split; [reflexivity|]); repeat split; reflexivity.
Qed.

Lemma exit_code_two r1 r2 :
  exit_code [("simplify", r1); ("zapply", r2)]
  = if get_success r1 || get_success r2 then 0 else 1.
Proof.
  unfold exit_code. simpl. now destruct (get_success r1), (get_success r2).
Qed.

(** C9, as the code has it.  Every run of the orchestrator returns
    from [main] with the summary, which lists both configured sources,
    and then exits: with code 0 exactly when the scraper of at least
    one source returned rows, with code 1 exactly when every source
    failed at its import or at its scrape (an exception, no result, an
    empty result).  What happens to a source's write does not enter the
    exit code. *)
Theorem exit_code_after_summary (w : world) (d : disk) :
  exists results summ d',
    main w d = Returns (results, summ, d')
    /\ script w d = Returns (exit_code results, summ, d')
    /\ List.map fst results = ["simplify"; "zapply"]
    /\ List.map line_name (breakdown summ) = ["simplify"; "zapply"]
    /\ n_results summ = 2%nat
    /\ (exit_code results = 0 <->
        (exists df, succeeded (simplify w) df)
        \/ (exists df, succeeded (zapply w) df))
    /\ (exit_code results = 1 <-> failed (simplify w) /\ failed (zapply w)).
Proof.
  destruct (main_returns w d) as (r1 & d1 & r2 & d2 & E1 & E2 & E).
  destruct (run_source_returns github_jobs (simplify w) d)
    as (r1' & d1' & E1' & _ & Hf1 & Hs1).
  rewrite E1' in E1. inversion E1; subst. clear E1.
  destruct (run_source_returns zapply_jobs (zapply w) d1)
    as (r2' & d2' & E2' & _ & Hf2 & Hs2).
  rewrite E2' in E2. inversion E2; subst. clear E2.
  eexists. eexists. eexists. split; [exact E|].
  split; [unfold script; rewrite E; reflexivity|].
  split; [reflexivity|]. split; [reflexivity|]. split; [reflexivity|].
  rewrite exit_code_two.
  destruct (failed_or_succeeded (simplify w)) as [F1|(df1 & S1)];
    destruct (failed_or_succeeded (zapply w)) as [F2|(df2 & S2)].
  - destruct (Hf1 F1) as (_ & ->), (Hf2 F2) as (_ & ->). cbn [orb]. split.
    + split; [discriminate|].
      intros [(df & H)|(df & H)]; exfalso;
        [exact (failed_not_succeeded _ _ F1 H)|exact (failed_not_succeeded _ _ F2 H)].
    + split; [intros _; now split|reflexivity].
  - destruct (Hs2 df2 S2) as (-> & _). rewrite orb_true_r. split.
    + split; [intros _; right; now exists df2|reflexivity].
    + split; [discriminate|].
      intros [_ F2]. exfalso. exact (failed_not_succeeded _ _ F2 S2).
  - destruct (Hs1 df1 S1) as (-> & _). cbn [orb]. split.
    + split; [intros _; left; now exists df1|reflexivity].
    + split; [discriminate|].
      intros [F1 _]. exfalso. exact (failed_not_succeeded _ _ F1 S1).
  - destruct (Hs1 df1 S1) as (-> & _). cbn [orb]. split.
    + split; [intros _; left; now exists df1|reflexivity].
    + split; [discriminate|].
      intros [F1 _]. exfalso. exact (failed_not_succeeded _ _ F1 S1).
Qed.

(** C9 fails as stated.  Both sources are scraped and the insert of
    both writes raises: each writer reports the error and neither table
    holds a row, so the run of every source has failed; the summary
    still counts two successful sources and the exit code is 0. *)
Lemma exit_code_ignores_write_errors :
  fst (save_to_database github_jobs insert_raises google_frame ∅) = ErrorSaving
  /\ fst (save_to_database zapply_jobs insert_raises (Some Samples.zapply_frame)
            (snd (save_to_database github_jobs insert_raises google_frame ∅)))
     = ErrorSaving
  /\ exists summ d',
       script Samples.both_writes_fail_world ∅ = Returns (0, summ, d')
       /\ successful summ = 2%nat
       /\ n_results summ = 2%nat
       /\ Samples.table_rows d' github_jobs = []
       /\ Samples.table_rows d' zapply_jobs = [].
Proof.
  split; [reflexivity|]. split; [reflexivity|].
  eexists. eexists. split; [reflexivity|]. repeat split; reflexivity.
Qed.

Lemma failed_run_keeps_snapshot_witness :
  exists results summ d',
    main all_failed_world earlier_snapshot = Returns (results, summ, d')
    /\ d' !! github_jobs = earlier_snapshot !! github_jobs
    /\ d' !! zapply_jobs = earlier_snapshot !! zapply_jobs.
Proof.
  destruct failed_run_keeps_snapshot as (_ & _ & _ & _ & _ & _ & Hcall & _ & Hmain & _).
  destruct (main_returns all_failed_world earlier_snapshot)
    as (r1 & d1 & r2 & d2 & _ & _ & E).
  eexists. eexists. eexists. split; [exact E|].
  destruct (Hmain _ _ _ _ _ E) as [H1 H2]. split.
  - apply H1, Hcall. left.
    exists TimePattern.now_2026, (fun _ => Returns []). reflexivity.
  - apply H2, Hcall. right.
    exists no_heading, no_link, TimePattern.now_2026. reflexivity.
Defined.

Lemma write_error_not_in_summary_witness :
  exists results summ d',
    main (write_failure_world insert_raises) ∅ = Returns (results, summ, d')
    /\ In (true, "simplify", 1%nat, 2%Q) (breakdown summ).
Proof.
  destruct (write_error_not_in_summary (write_failure_world insert_raises) ∅)
    as (results & summ & d1 & d' & E & H & _).
  exists results, summ, d'. split; [exact E|].
  refine (H (default [] google_frame) _).
  split; [reflexivity|]. split; [reflexivity|discriminate].
Defined.

Lemma exit_code_after_summary_witness :
  (exists summ d', script all_failed_world earlier_snapshot = Returns (1, summ, d'))
  /\ (exists summ d', script (write_failure_world no_faults) ∅ = Returns (0, summ, d')).
Proof.
  split.
  - destruct (exit_code_after_summary all_failed_world earlier_snapshot)
      as (results & summ & d' & _ & E & _ & _ & _ & _ & H).
    exists summ, d'. rewrite E, (proj2 H); [reflexivity|].
    split; right; right; left; reflexivity.
  - destruct (exit_code_after_summary (write_failure_world no_faults) ∅)
      as (results & summ & d' & _ & E & _ & _ & _ & H & _).
    exists summ, d'. rewrite E, (proj2 H); [reflexivity|].
    left. exists (default [] google_frame).
    split; [reflexivity|]. split; [reflexivity|discriminate].
Defined.

End MasterFacts.

(* ================================================================== *)
(** ** More on the freshness score and the dashboard badge *)

Module ScoreFacts.
Import PyStr Freshness FreshnessFacts Dashboard.

Ltac q_absurd :=
  exfalso;
  match goal with
  | H1 : (?a < ?c1)%Q, H2 : (?c2 <= ?a)%Q |- _ =>
      let K := fresh in
      assert (K : (c2 < c1)%Q) by exact (Qle_lt_trans _ _ _ H2 H1);
      vm_compute in K; discriminate K
  end.

(** X1. An older posting never scores higher: the freshness score does
    not increase with the age. *)
Theorem freshness_score_antitone (a b : Q) :
  (a <= b)%Q ->
  calculate_freshness_score (Some b) <= calculate_freshness_score (Some a).
Proof.
  intros Hab. unfold calculate_freshness_score.
  destruct (Qltb a 1) eqn:A1; [apply Qltb_lt in A1 | apply Qltb_ge in A1];
    [score_case; lia|].
  destruct (Qltb a 7) eqn:A7; [apply Qltb_lt in A7 | apply Qltb_ge in A7].
  { score_case; try lia.
    exfalso. apply (Qlt_irrefl 1). eapply Qle_lt_trans; [exact A1|].
    eapply Qle_lt_trans; [exact Hab|assumption]. }
  assert (B7 : (7 <= b)%Q) by (eapply Qle_trans; eassumption).
  destruct (Qltb a 14) eqn:A14; [apply Qltb_lt in A14 | apply Qltb_ge in A14];
    [score_case; try lia; q_absurd|].
  assert (B14 : (14 <= b)%Q) by (eapply Qle_trans; eassumption).
  destruct (Qltb a 30) eqn:A30; [apply Qltb_lt in A30 | apply Qltb_ge in A30];
    [score_case; try lia; q_absurd|].
  assert (B30 : (30 <= b)%Q) by (eapply Qle_trans; eassumption).
  destruct (Qltb a 60) eqn:A60; [apply Qltb_lt in A60 | apply Qltb_ge in A60];
    [score_case; try lia; q_absurd|].
  assert (B60 : (60 <= b)%Q) by (eapply Qle_trans; eassumption).
  score_case; try lia; q_absurd.
Qed.

Lemma freshness_score_antitone_witness :
  calculate_freshness_score (Some 30%Q) <= calculate_freshness_score (Some (3 # 24)%Q).
Proof. apply freshness_score_antitone. discriminate. Defined.

(** X2. The score 50 is kept for postings of unknown age: a known age
    never scores 50, an unknown one always does. *)
Theorem score_50_iff_unknown_age (days_ago : option Q) :
  calculate_freshness_score days_ago = 50 <-> days_ago = None.
Proof.
  destruct days_ago as [a|]; simpl; [|tauto].
  split; [|discriminate]. score_case; discriminate.
Qed.

(** X3. The badge the dashboard shows agrees with the stored score:
    "Fresh" goes with 100, "Recent" with 90, "Active" with 75 or 60,
    "Older" with 40 or 20, and no badge with the score 50 of an unknown
    age. *)
Theorem badge_agrees_with_score (days_ago : option Q) :
  (freshness_badge days_ago = badge_fresh
   <-> calculate_freshness_score days_ago = 100)
  /\ (freshness_badge days_ago = badge_recent
      <-> calculate_freshness_score days_ago = 90)
  /\ (freshness_badge days_ago = badge_active
      <-> calculate_freshness_score days_ago = 75
          \/ calculate_freshness_score days_ago = 60)
  /\ (freshness_badge days_ago = badge_older
      <-> calculate_freshness_score days_ago = 40
          \/ calculate_freshness_score days_ago = 20)
  /\ (freshness_badge days_ago = ""
      <-> calculate_freshness_score days_ago = 50).
Proof.
  destruct days_ago as [a|]; unfold freshness_badge, calculate_freshness_score.
  - score_case; try q_absurd;
      repeat split; intros H; try discriminate H; try reflexivity;
      try (destruct H as [H|H]; discriminate H); auto.
  - repeat split; intros H; try discriminate H; try reflexivity;
      try (destruct H as [H|H]; discriminate H).
Qed.

End ScoreFacts.

(* ================================================================== *)
(** ** More on the Zapply parser *)

Module ZapplyFacts.
Import PyStr Freshness TimePattern Records Samples PyStrFacts TimeFacts
       ParseTimeFacts FreshnessFacts.

(** What one iteration of the line loop can do. *)
Lemma zapply_step_cases hc ml now st line st' :
  Zapply.step hc ml now st line = Returns st' ->
  (Zapply.jobs st' = Zapply.jobs st
   \/ exists j cells,
        Zapply.jobs st' = Zapply.jobs st ++ [j]
        /\ Zapply.in_table st = true
        /\ Zapply.make_job ml now (Zapply.current_company st) cells = Returns (Some j))
  /\ (Zapply.current_company st' = Zapply.current_company st
      \/ hc line = Some (Zapply.current_company st'))
  /\ (is_separator line = false ->
      Zapply.in_table st' = false \/ Zapply.in_table st' = Zapply.in_table st).
Proof.
  unfold Zapply.step, is_separator.
  destruct (startswith "####" (strip line) && contains "**" line).
  { destruct (hc line) eqn:Hh; intros H; inversion H; subst; simpl;
      repeat split; auto. }
  destruct (contains "|" line && contains "---" line) eqn:Hsep.
  { intros H; inversion H; subst; simpl. repeat split; auto; discriminate. }
  destruct (contains "|" line && negb (Zapply.in_table st) && _).
  { intros H; inversion H; subst. repeat split; auto. }
  destruct (contains "|" line && Zapply.in_table st && Zapply.table_header_seen st)
    eqn:Hrow.
  2:{ intros H; inversion H; subst. repeat split; auto. }
  apply andb_true_iff in Hrow as [Hrow _]. apply andb_true_iff in Hrow as [_ Hin].
  destruct (length _ <? 4)%nat.
  { destruct (Zapply.is_empty (strip line) || _);
      intros H; inversion H; subst; simpl; repeat split; auto. }
  destruct (Zapply.make_job ml now _ _) as [[j|]|] eqn:E; simpl;
    intros H; inversion H; subst; simpl; (split; [|split; auto]); auto.
  right. eauto.
Qed.

(** Every record of a parse was built by [make_job] from the cells of
    a table row. *)
Lemma zapply_scan_made hc ml now lines st st' :
  List.Forall (fun j => exists company cells,
                 Zapply.make_job ml now company cells = Returns (Some j))
    (Zapply.jobs st) ->
  Zapply.scan hc ml now st lines = Returns st' ->
  List.Forall (fun j => exists company cells,
                 Zapply.make_job ml now company cells = Returns (Some j))
    (Zapply.jobs st').
Proof.
  revert st. induction lines as [|line rest IH]; intros st Hst; simpl.
  - intros H. inversion H; subst. exact Hst.
  - destruct (Zapply.step hc ml now st line) as [st1|] eqn:E; simpl; [|discriminate].
    apply IH. apply zapply_step_cases in E as ([-> | (j & cells & -> & _ & Hj)] & _);
      [exact Hst|].
    apply List.Forall_app. split; [exact Hst|]. constructor; [eauto|constructor].
Qed.

Lemma zapply_scrape_made hc ml now response js j :
  Zapply.scrape_zapply_github hc ml now response = Some js ->
  In j js ->
  exists company cells, Zapply.make_job ml now company cells = Returns (Some j).
Proof.
  unfold Zapply.scrape_zapply_github.
  destruct response as [markdown|]; [|discriminate].
  destruct (Zapply.scan _ _ _ _ _) as [st|] eqn:E; [|discriminate].
  destruct (_ =? _)%nat; [discriminate|].
  intros H Hin. inversion H; subst.
  apply zapply_scan_made in E; [|constructor].
  rewrite List.Forall_forall in E. exact (E j Hin).
Qed.

(** X4. Every record of the Zapply parser has a title of at least two
    characters: a row whose role cell is empty or one character long
    is skipped. *)
Theorem zapply_title_not_short hc ml now response js j :
  Zapply.scrape_zapply_github hc ml now response = Some js ->
  In j js ->
  (2 <= len (Zapply.title j))%nat /\ Zapply.title j <> "".
Proof.
  intros Hs Hin. destruct (zapply_scrape_made _ _ _ _ _ _ Hs Hin) as (company & cells & E).
  unfold Zapply.make_job in E.
  destruct (Zapply.is_empty _ || _) eqn:C; [discriminate|].
  destruct (parse_time_ago now _) as [parsed|]; simpl in E; [|discriminate].
  inversion E; subst. simpl.
  apply orb_false_iff in C as [C1 C2]. apply Nat.ltb_ge in C2.
  split; [exact C2|]. intros Hempty. rewrite Hempty in C1. discriminate.
Qed.

Lemma zapply_title_not_short_witness :
  exists j, coop_jobs = Some [j] /\ (2 <= len (Zapply.title j))%nat.
Proof.
  eexists. split; [reflexivity|].
  exact (proj1 (zapply_title_not_short no_heading no_link now_2026
                  (Returns coop_page) _ _ eq_refl (or_introl eq_refl))).
Defined.

(** X5. A Zapply record is marked fresh exactly when its freshness
    score is at least 90, that is, when its age is known and below a
    week. *)
Theorem zapply_fresh_iff_score hc ml now response js j :
  Zapply.scrape_zapply_github hc ml now response = Some js ->
  In j js ->
  (Zapply.is_fresh j = true <-> 90 <= Zapply.freshness_score j)
  /\ (Zapply.is_fresh j = true <->
      exists d, Zapply.days_ago j = Some d /\ (d < 7)%Q).
Proof.
  intros Hs Hin. destruct (zapply_scrape_made _ _ _ _ _ _ Hs Hin) as (company & cells & E).
  unfold Zapply.make_job in E.
  destruct (Zapply.is_empty _ || _); [discriminate|].
  destruct (parse_time_ago now _) as [[date [a|]]|]; simpl in E; try discriminate;
    inversion E; subst; simpl.
  - split.
    + unfold calculate_freshness_score. score_case; split; intros; try lia;
        try reflexivity; try discriminate; ScoreFacts.q_absurd.
    + rewrite Qltb_lt. split; [intros H; exists a; now split|].
      intros (d & Hd & Hlt). now inversion Hd; subst.
  - split; split; try discriminate; try lia. intros (d & Hd & _). discriminate.
Qed.

Lemma zapply_fresh_iff_score_witness :
  exists j, coop_jobs = Some [j] /\ 90 <= Zapply.freshness_score j.
Proof.
  eexists. split; [reflexivity|].
  refine (proj1 (proj1 (zapply_fresh_iff_score no_heading no_link now_2026
                          (Returns coop_page) _ _ eq_refl (or_introl eq_refl))) _).
  reflexivity.
Defined.

(** The date [parse_time_ago] returns is a day between day 0 and the
    day of [now]. *)
Lemma parse_time_ago_date_range now text d a :
  parse_time_ago now text = Returns (Some d, a) ->
  0 <= d <= strftime_date now.
Proof.
  intros P.
  destruct (re_search (code_points (strip (lower text)))) as [[ds u]|] eqn:E.
  - destruct (parse_time_ago_inv _ _ _ _ _ E P)
      as (n & age & delta & I & A & T & Hle & R).
    apply re_search_first in E
      as (pre & m & _ & (ws1 & ws2 & rest & _ & _ & Hds & _) & _).
    pose proof (timedelta_days_nonneg _ _
                  (days_of_nonneg _ _ _ (int_nonneg _ _ Hds I) A) T) as Htd.
    inversion R; subst. unfold strftime_date, us_per_day. split.
    + apply Z.div_pos; lia.
    + apply Z.div_le_mono; lia.
  - unfold parse_time_ago in P. rewrite E in P. discriminate.
Qed.

(** X6. The posting date of a Zapply record is never after the day of
    the run and never before the first representable day; a record
    whose age could not be read is dated on the day of the run. *)
Theorem zapply_date_posted_range hc ml now response js j :
  0 <= now ->
  Zapply.scrape_zapply_github hc ml now response = Some js ->
  In j js ->
  0 <= Zapply.date_posted j <= strftime_date now
  /\ (Zapply.days_ago j = None -> Zapply.date_posted j = strftime_date now).
Proof.
  intros Hnow Hs Hin.
  destruct (zapply_scrape_made _ _ _ _ _ _ Hs Hin) as (company & cells & E).
  unfold Zapply.make_job in E.
  destruct (Zapply.is_empty _ || _); [discriminate|].
  destruct (parse_time_ago now _) as [[[d|] a]|] eqn:P; simpl in E; try discriminate;
    inversion E; subst; simpl.
  - split; [exact (parse_time_ago_date_range _ _ _ _ P)|].
    intros ->. unfold parse_time_ago in P.
    destruct (re_search _) as [[ds u]|]; [|discriminate].
    destruct (int ds) as [n|]; [|discriminate]. cbn [obind] in P.
    destruct (days_of n u) as [age|]; [|discriminate]. cbn [obind] in P.
    destruct (timedelta_days age) as [delta|]; [|discriminate].
    cbn [obind] in P.
    destruct (datetime_sub _ _); discriminate.
  - split; [|reflexivity]. unfold strftime_date, us_per_day.
    split; [apply Z.div_pos; lia|lia].
Qed.

Lemma zapply_date_posted_range_witness :
  exists j, coop_jobs = Some [j]
            /\ 0 <= Zapply.date_posted j <= strftime_date now_2026.
Proof.
  eexists. split; [reflexivity|].
  refine (proj1 (zapply_date_posted_range no_heading no_link now_2026
                   (Returns coop_page) _ _ _ eq_refl (or_introl eq_refl))).
  discriminate.
Defined.

(** Without a separator line the loop stays outside any table and
    collects nothing. *)
Lemma zapply_scan_outside hc ml now lines st st' :
  (forall line, In line lines -> is_separator line = false) ->
  Zapply.in_table st = false -> Zapply.jobs st = [] ->
  Zapply.scan hc ml now st lines = Returns st' ->
  Zapply.jobs st' = [].
Proof.
  revert st. induction lines as [|line rest IH]; intros st Hsep Hin Hj; simpl.
  - intros H. inversion H; subst. exact Hj.
  - destruct (Zapply.step hc ml now st line) as [st1|] eqn:E; simpl; [|discriminate].
    apply zapply_step_cases in E as (Hjobs & _ & Htab).
    apply IH.
    + intros l Hl. apply Hsep. now right.
    + destruct (Htab (Hsep line (or_introl eq_refl))) as [H|H]; congruence.
    + destruct Hjobs as [->|(j & cells & _ & Ht & _)]; congruence.
Qed.

(** X7. A page on which no line is a table separator (a line with both
    a pipe and three dashes) yields no record at all: the Zapply parser
    reads rows only after a separator, and returns [None]. *)
Theorem zapply_no_separator_no_jobs hc ml now markdown :
  (forall line, In line (split "010" markdown) -> is_separator line = false) ->
  Zapply.scrape_zapply_github hc ml now (Returns markdown) = None.
Proof.
  intros Hsep. unfold Zapply.scrape_zapply_github.
  destruct (Zapply.scan _ _ _ _ _) as [st|] eqn:E; [|reflexivity].
  apply zapply_scan_outside in E; try assumption; try reflexivity.
  now rewrite E.
Qed.

Lemma zapply_no_separator_no_jobs_witness :
  Zapply.scrape_zapply_github no_heading no_link now_2026 (Returns no_separator_page)
  = None.
Proof.
  apply zapply_no_separator_no_jobs.
  intros line [<-|[<-|[]]]; reflexivity.
Defined.

Lemma zapply_scan_app hc ml now l1 l2 st :
  Zapply.scan hc ml now st (l1 ++ l2)
  = obind (Zapply.scan hc ml now st l1) (fun st' => Zapply.scan hc ml now st' l2).
Proof.
  revert st. induction l1 as [|line rest IH]; intros st; simpl; [reflexivity|].
  destruct (Zapply.step hc ml now st line) as [st1|]; simpl; [apply IH|reflexivity].
Qed.

(** X8. One row that makes the loop raise (a posting age that reaches
    back before the first representable date) loses the whole Zapply
    page: whatever rows come before or after it, the parser returns
    [None]. *)
Theorem zapply_bad_row_aborts hc ml now markdown pre line post st :
  split "010" markdown = pre ++ line :: post ->
  Zapply.scan hc ml now Zapply.initial_state pre = Returns st ->
  Zapply.step hc ml now st line = Raises ->
  Zapply.scrape_zapply_github hc ml now (Returns markdown) = None.
Proof.
  intros Hsplit Hpre Hstep. unfold Zapply.scrape_zapply_github.
  rewrite Hsplit, zapply_scan_app, Hpre. simpl. now rewrite Hstep.
Qed.

Lemma zapply_bad_row_aborts_witness :
  Zapply.scrape_zapply_github no_heading no_link now_2026 (Returns overflow_page) = None.
Proof.
  refine (zapply_bad_row_aborts no_heading no_link now_2026 overflow_page
            [ "| Role | Location | Posted | Level |";
              "|---|---|---|---|";
              "| Software Engineer | Toronto, ON | 2d ago | Entry-Level |" ]
            "| Data Engineer | Toronto, ON | 800000d ago | Entry-Level |"
            [] _ eq_refl eq_refl eq_refl).
Defined.

(** The company carried by the loop is the initial one or was captured
    from a heading line already read. *)
Lemma zapply_scan_company hc ml now (all lines : list string) st st' :
  (forall line, In line lines -> In line all) ->
  let known name :=
    name = "Unknown" \/ exists line, In line all /\ hc line = Some name in
  known (Zapply.current_company st) ->
  List.Forall (fun j => known (Zapply.company j)) (Zapply.jobs st) ->
  Zapply.scan hc ml now st lines = Returns st' ->
  List.Forall (fun j => known (Zapply.company j)) (Zapply.jobs st').
Proof.
  intros Hall known. revert st Hall.
  induction lines as [|line rest IH]; intros st Hall Hc Hj; simpl.
  - intros H. inversion H; subst. exact Hj.
  - destruct (Zapply.step hc ml now st line) as [st1|] eqn:E; simpl; [|discriminate].
    apply zapply_step_cases in E as (Hjobs & Hcomp & _).
    apply IH.
    + intros l Hl. apply Hall. now right.
    + destruct Hcomp as [->|Hh]; [exact Hc|].
      right. exists line. split; [apply Hall; now left|exact Hh].
    + destruct Hjobs as [->|(j & cells & -> & _ & Hm)]; [exact Hj|].
      apply List.Forall_app. split; [exact Hj|]. constructor; [|constructor].
      destruct (ScanFacts.zapply_make_job_consistent _ _ _ _ _ Hm) as [_ ->].
      exact Hc.
Qed.

(** X9. The company of every Zapply record is either the initial
    "Unknown" or a name the heading pattern captured from a line of
    the page. *)
Theorem zapply_company_from_heading hc ml now markdown js j :
  Zapply.scrape_zapply_github hc ml now (Returns markdown) = Some js ->
  In j js ->
  Zapply.company j = "Unknown"
  \/ exists line, In line (split "010" markdown)
                  /\ hc line = Some (Zapply.company j).
Proof.
  unfold Zapply.scrape_zapply_github.
  destruct (Zapply.scan _ _ _ _ _) as [st|] eqn:E; [|discriminate].
  destruct (_ =? _)%nat; [discriminate|].
  intros H Hin. inversion H; subst.
  apply (zapply_scan_company hc ml now (split "010" markdown)) in E.
  - rewrite List.Forall_forall in E. exact (E j Hin).
  - auto.
  - now left.
  - constructor.
Qed.

Lemma zapply_company_from_heading_witness :
  exists j, company_jobs "FedEx" = Some [j]
            /\ (Zapply.company j = "Unknown"
                \/ exists line, In line (split "010" (company_page "FedEx"))
                                /\ heading_of "FedEx" line = Some (Zapply.company j)).
Proof.
  run_parser (company_jobs "FedEx"). split; [exact Parsed|].
  exact (zapply_company_from_heading (heading_of "FedEx") no_link now_2026
           (company_page "FedEx") _ _ Parsed (or_introl eq_refl)).
Defined.

End ZapplyFacts.

(* ================================================================== *)
(** ** More on the SWE-2026 parser *)

Module SweFacts.
Import PyStr Freshness TimePattern Records Samples PyStrFacts.

Lemma swe_make_job_fields ml now archived parts j :
  Swe2026.make_job ml now archived parts = Returns j ->
  Swe2026.is_archived j = archived /\ Swe2026.url j <> "".
Proof.
  unfold Swe2026.make_job.
  destruct (parse_time_ago now _) as [parsed|]; simpl; [|discriminate].
  intros H. inversion H; subst. simpl. split; [reflexivity|].
  destruct (if (5 <? length parts)%nat then _ else _); discriminate.
Qed.

(** What one iteration of the line loop can do. *)
Lemma swe_step_cases ml now archived jobs line :
  Swe2026.step ml now (archived, jobs) line = (true, jobs)
  \/ Swe2026.step ml now (archived, jobs) line = (archived, jobs)
  \/ exists j parts,
       Swe2026.step ml now (archived, jobs) line = (archived, jobs ++ [j])
       /\ Swe2026.make_job ml now archived parts = Returns j.
Proof.
  unfold Swe2026.step.
  destruct (contains "archived" (lower line) && _); [now left|].
  destruct (contains "|" line && _); [|right; now left].
  destruct ((length _ <? 4)%nat || _ || _); [right; now left|].
  destruct (Swe2026.make_job ml now archived _) as [j|] eqn:E; [|right; now left].
  right. right. eauto.
Qed.

Lemma swe_fold_inv ml now (P : bool -> list Swe2026.job -> Prop) lines st :
  (forall a js, P a js -> P true js) ->
  (forall a js j parts,
      P a js -> Swe2026.make_job ml now a parts = Returns j -> P a (js ++ [j])) ->
  P (fst st) (snd st) ->
  P (fst (List.fold_left (Swe2026.step ml now) lines st))
    (snd (List.fold_left (Swe2026.step ml now) lines st)).
Proof.
  intros Hsec Hrow. revert st.
  induction lines as [|line rest IH]; intros [a js] Hst; [exact Hst|].
  cbn [List.fold_left]. apply IH. cbn [fst snd] in Hst.
  destruct (swe_step_cases ml now a js line) as [E|[E|(j & parts & E & Em)]];
    rewrite E; cbn [fst snd].
  - exact (Hsec _ _ Hst).
  - exact Hst.
  - exact (Hrow _ _ _ _ Hst Em).
Qed.



(** X11. In the output of the SWE-2026 parser the archived records come
    last: once a line naming the archived jobs has been read, every
    later record is archived, and no earlier one is. *)
Theorem swe_archived_last ml now response js :
  Swe2026.scrape_zapply_swe_2026 ml now response = Some js ->
  archived_last js.
Proof.
  unfold Swe2026.scrape_zapply_swe_2026.
  destruct response as [markdown|]; [|discriminate].
  pose proof (swe_fold_inv ml now
                (fun a js =>
                   if a then archived_last js
                   else List.Forall (fun j => Swe2026.is_archived j = false) js)
                (split "010" markdown) (false, [])) as Hinv.
  simpl in Hinv.
  destruct (List.fold_left _ _ _) as [a js1]. simpl in *.
  assert (Hfin : if a then archived_last js1
                 else List.Forall (fun j => Swe2026.is_archived j = false) js1).
  { apply Hinv; [| |constructor].
    - intros [|] js' H; [exact H|].
      exists js', []. rewrite app_nil_r. repeat split; [exact H|constructor].
    - intros [|] js' j' parts H E;
        destruct (swe_make_job_fields _ _ _ _ _ E) as [Ha _].
      + destruct H as (l1 & l2 & -> & H1 & H2). exists l1, (l2 ++ [j']).
        rewrite <- (List.app_assoc l1 l2 [j']). repeat split; [exact H1|].
        apply List.Forall_app. split; [exact H2|]. constructor; [exact Ha|constructor].
      + apply List.Forall_app. split; [exact H|]. constructor; [exact Ha|constructor]. }
  destruct js1 as [|j0 js0]; [discriminate|].
  intros H. inversion H; subst. destruct a; [exact Hfin|].
  exists (j0 :: js0), []. rewrite app_nil_r. repeat split; [exact Hfin|constructor].
Qed.

Lemma swe_archived_last_witness :
  exists js, Swe2026.scrape_zapply_swe_2026 no_link now_2026 (Returns swe_overflow_page)
             = Some js
             /\ archived_last js.
Proof.
  eexists. split; [reflexivity|].
  exact (swe_archived_last no_link now_2026 (Returns swe_overflow_page) _ eq_refl).
Defined.

Lemma swe_step_skips ml now st line :
  contains "archived" (lower line) && contains "jobs" (lower line) = false ->
  parse_time_ago now (Swe2026.part (List.map strip (split "|" line)) 4) = Raises ->
  Swe2026.step ml now st line = st.
Proof.
  intros Hsec Hraise. destruct st as [a js]. unfold Swe2026.step. rewrite Hsec.
  destruct (contains "|" line && _); [|reflexivity].
  destruct ((length _ <? 4)%nat || _ || _); [reflexivity|].
  unfold Swe2026.make_job. rewrite Hraise. reflexivity.
Qed.

(** X12. A row that makes the SWE-2026 loop raise (a posting age that
    reaches back before the first representable date) is skipped and
    nothing else: the parser returns what it returns for the page
    without that line. *)
Theorem swe_bad_row_skipped ml now markdown markdown' pre line post :
  split "010" markdown = pre ++ line :: post ->
  split "010" markdown' = pre ++ post ->
  contains "archived" (lower line) && contains "jobs" (lower line) = false ->
  parse_time_ago now (Swe2026.part (List.map strip (split "|" line)) 4) = Raises ->
  Swe2026.scrape_zapply_swe_2026 ml now (Returns markdown)
  = Swe2026.scrape_zapply_swe_2026 ml now (Returns markdown').
Proof.
  intros H1 H2 Hsec Hraise. unfold Swe2026.scrape_zapply_swe_2026.
  rewrite H1, H2, !List.fold_left_app. simpl.
  now rewrite (swe_step_skips ml now _ line Hsec Hraise).
Qed.

Lemma swe_bad_row_skipped_witness :
  Swe2026.scrape_zapply_swe_2026 no_link now_2026 (Returns swe_overflow_page)
  = Swe2026.scrape_zapply_swe_2026 no_link now_2026 (Returns swe_clean_page).
Proof.
  refine (swe_bad_row_skipped no_link now_2026 swe_overflow_page swe_clean_page
            [ "| Company | Role | Location | Posted | Apply |";
              "|--|--|--|--|--|";
              "| Acme | Software Engineer | Toronto, ON | 2d ago | |" ]
            "| Acme | Data Engineer | Toronto, ON | 800000d ago | |"
            [ "## Archived Jobs";
              "| Initech | Developer | Remote | 3w ago | |" ]
            eq_refl eq_refl eq_refl eq_refl).
Defined.

End SweFacts.

(* ================================================================== *)
(** ** More on the SimplifyJobs parser *)

Module SimplifyFacts.
Import PyStr Freshness TimePattern Records Samples PyStrFacts TimeFacts ParseTimeFacts.

Lemma age_search_unfold (s : list N) :
  Simplify.age_search s =
  let '(ds, r) := take_digits s in
  if negb (match ds with [] => true | _ => false end)
     && literal (code_points "d") r
  then Some ds
  else match s with
       | [] => None
       | _ :: s' => Simplify.age_search s'
       end.
Proof. destruct s; reflexivity. Qed.

(** Where digits and "d" start a text, the search stops at once. *)
Lemma age_search_here (ds rest : list N) :
  ds <> [] -> forallb is_digit ds = true ->
  Simplify.age_search (ds ++ code_points "d" ++ rest) = Some ds.
Proof.
  intros Hne Hds. rewrite age_search_unfold.
  rewrite (take_digits_app ds (code_points "d" ++ rest) Hds eq_refl).
  destruct ds; [contradiction|]. now rewrite literal_app.
Qed.

Lemma age_search_complete (s : list N) :
  HasAge s -> exists ds, Simplify.age_search s = Some ds.
Proof.
  intros (pre & ds & rest & -> & Hne & Hds). induction pre as [|c pre IH].
  - exists ds. now apply age_search_here.
  - cbn [app]. rewrite age_search_unfold.
    destruct (take_digits _) as [ds' r].
    destruct (_ && _); [now exists ds'|exact IH].
Qed.

(** What the search returns is the first run of digits before a "d". *)
Lemma age_search_first (s ds : list N) :
  Simplify.age_search s = Some ds -> FirstAge s ds.
Proof.
  induction s as [|c s IH]; rewrite age_search_unfold.
  - simpl. discriminate.
  - destruct (take_digits (c :: s)) as [ds' r] eqn:E.
    destruct (negb _ && literal _ r) eqn:T.
    + intros H. inversion H; subst. clear H.
      apply andb_true_iff in T as [T1 T2].
      apply take_digits_spec in E as (Es & Hds & _).
      apply literal_inv in T2 as [rest ->].
      exists [], rest. split; [exact Es|].
      split; [now destruct ds|]. split; [exact Hds|].
      intros; simpl; lia.
    + intros H. destruct (IH H) as (pre & rest & -> & Hne & Hds & Hfirst).
      exists (c :: pre), rest. split; [reflexivity|].
      split; [exact Hne|]. split; [exact Hds|].
      intros pre' ds'' rest' Es Hne' Hds'. destruct pre' as [|c' pre'].
      * exfalso. cbn [app] in Es.
        pose proof (take_digits_app ds'' (code_points "d" ++ rest') Hds' eq_refl) as K.
        rewrite <- Es, E in K.
        assert (Hd : ds' = ds'') by congruence.
        assert (Hr : r = code_points "d" ++ rest') by congruence.
        subst ds' r. destruct ds''; [contradiction|].
        rewrite literal_app in T. simpl in T. discriminate T.
      * cbn [app] in Es. injection Es as _ Es'.
        simpl. apply le_n_S. exact (Hfirst _ _ _ Es' Hne' Hds').
Qed.

Lemma simplify_make_job_age now cells j :
  Simplify.make_job now cells = Returns (Some j) ->
  Simplify.age_days_of (Simplify.age_posted j) = Returns (Simplify.age_days j).
Proof.
  unfold Simplify.make_job.
  destruct (length cells <? 5)%nat; [discriminate|].
  destruct (Zapply.is_empty _ || _); [discriminate|].
  destruct (Simplify.age_days_of _) as [a|] eqn:A; [|discriminate].
  cbn [obind]. intros H. inversion H; subst. exact A.
Qed.

(** X13. The age in days of a SimplifyJobs record, when present, is
    the non-negative number written by the first run of digits that a
    "d" follows in the age cell; it is absent exactly when the cell has
    no digits followed by "d" (as for an age given in months). *)
Theorem simplify_age_days now response soup js j :
  Simplify.scrape_simplify_jobs_github now response soup = Some js ->
  In j js ->
  (forall n, Simplify.age_days j = Some n ->
     0 <= n
     /\ exists ds, FirstAge (code_points (Simplify.age_posted j)) ds
                   /\ int ds = Returns n)
  /\ (Simplify.age_days j = None <->
      ~ HasAge (code_points (Simplify.age_posted j))).
Proof.
  intros Hs Hin.
  destruct (ScanFacts.simplify_scrape_rows _ _ _ _ _ Hs Hin) as (cells & E).
  apply simplify_make_job_age in E. unfold Simplify.age_days_of in E.
  destruct (Simplify.age_search _) as [ds|] eqn:A.
  - destruct (int ds) as [n|] eqn:I; [|discriminate]. cbn [obind] in E.
    inversion E as [E']. apply age_search_first in A. split.
    + intros n' Hn. inversion Hn; subst.
      destruct A as (pre & rest & Es & Hne & Hds & Hfirst).
      split; [exact (int_nonneg _ _ Hds I)|].
      exists ds. split; [|exact I]. exists pre, rest. auto.
    + split; [discriminate|]. intros Hno. exfalso. apply Hno.
      destruct A as (pre & rest & Es & Hne & Hds & _).
      exists pre, ds, rest. auto.
  - inversion E as [E']. split; [discriminate|].
    split; [|reflexivity]. intros _ Hhas.
    apply age_search_complete in Hhas as [ds Hds]. congruence.
Qed.

Lemma simplify_age_days_witness :
  exists j, table_jobs short_row_table = Some [j]
            /\ Simplify.age_days j = Some 3
            /\ 0 <= 3.
Proof.
  eexists. split; [reflexivity|]. split; [reflexivity|].
  exact (proj1 (proj1 (simplify_age_days now_2026 (Returns "")
                         (fun _ => Returns [short_row_table]) _ _
                         eq_refl (or_introl eq_refl)) 3 eq_refl)).
Defined.

(** An empty [href] counts as no link. *)
Example simplify_empty_href :
  exists j, table_jobs empty_href_table = Some [j]
            /\ Simplify.job_url j = "https://github.com/SimplifyJobs/New-Grad-Positions".
Proof. eexists. split; reflexivity. Qed.




End SimplifyFacts.

(* ================================================================== *)
(** ** More on the snapshot writers *)

Module WriterFacts.
Import Store StoreFacts Samples.

Section Rows.
Context {row : Type}.
Implicit Types (d : gmap string (list row)) (c : connection row)
               (t : string) (f : @faults) (batch jobs : list row).

(** What a write leaves in its own table, by the first call that raises. *)
Lemma save_to_database_table t f batch d :
  snd (save_to_database t f (Some batch) d) !! t
  = if (length batch =? 0)%nat || f OpConnect || f OpCreate then d !! t
    else if f OpDelete || f OpInsert then Some (table_rows d t)
    else Some batch.
Proof.
  unfold save_to_database, table_rows, after.
  destruct (length batch =? 0)%nat; [reflexivity|].
  destruct (f OpConnect); [reflexivity|]. simpl orb.
  unfold write_snapshot.
  unfold bind at 1. unfold guard at 1.
  destruct (f OpCreate); [reflexivity|].
  unfold create_table. simpl.
  unfold bind at 1. unfold guard at 1.
  destruct (f OpDelete).
  { simpl. destruct (d !! t) as [rows|] eqn:E; simpl; [exact E|apply lookup_insert_eq]. }
  assert (Hlook : (match d !! t with Some _ => d | None => <[t:=[]]> d end) !! t
                  = Some (default [] (d !! t))).
  { destruct (d !! t) as [rows|] eqn:E; simpl; [exact E|apply lookup_insert_eq]. }
  unfold delete_from, view. simpl. rewrite Hlook.
  unfold bind at 1. unfold to_sql_append.
  destruct (f OpInsert).
  { simpl. exact Hlook. }
  unfold insert_into, view. simpl. rewrite lookup_insert_eq. simpl.
  rewrite insert_insert_eq.
  unfold bind at 1. unfold guard at 1.
  destruct (f OpCommit); [simpl; apply lookup_insert_eq|]. simpl.
  unfold bind at 1.
  destruct (f OpCount); [simpl; apply lookup_insert_eq|].
  unfold count, view. simpl. rewrite lookup_insert_eq.
  unfold bind, guard, ret.
  destruct (f OpClose); simpl; apply lookup_insert_eq.
Qed.




(** What a write leaves in its table depends on the database only
    through that table. *)
Lemma write_reads_own_table_only t f jobs_df d1 d2 :
  d1 !! t = d2 !! t ->
  snd (save_to_database t f jobs_df d1) !! t
  = snd (save_to_database t f jobs_df d2) !! t.
Proof.
  intros H. destruct jobs_df as [batch|]; [|exact H].
  rewrite !save_to_database_table. unfold table_rows. now rewrite H.
Qed.

End Rows.

End WriterFacts.

(* ================================================================== *)
(** ** More on the orchestrator *)

Module OrchestratorFacts.
Import Store StoreFacts WriterFacts Master MasterFacts Records Samples.

(** A result reports success exactly when it reports at least one job. *)
Lemma run_source_jobs table s d r d' :
  run_source table s d = Returns (r, d') ->
  (get_success r = true <-> (0 < get_jobs r)%nat).
Proof.
  unfold run_source, run_scraper.
  destruct (import_error s).
  { intros H. inversion H; subst. unfold get_success, get_jobs. simpl.
    split; [discriminate|intros K; exfalso; lia]. }
  destruct (call s) as [[[|x df]|]|]; simpl; intros H; inversion H; subst;
    unfold get_success, get_jobs; simpl;
    split; try discriminate; intros K; try reflexivity; try lia; exfalso; lia.
Qed.

(** The result and the table of a block depend on the database only
    through the block's own table. *)
Lemma run_source_local table s d1 d2 r1 r2 d1' d2' :
  d1 !! table = d2 !! table ->
  run_source table s d1 = Returns (r1, d1') ->
  run_source table s d2 = Returns (r2, d2') ->
  r1 = r2 /\ d1' !! table = d2' !! table.
Proof.
  intros Hd. unfold run_source.
  destruct (import_error s).
  { intros [= <- <-] [= <- <-]. now split. }
  destruct (success _) as [[|]|]; try discriminate.
  - destruct (data _) as [[df|]|]; try discriminate;
      intros [= <- <-] [= <- <-]; (split; [reflexivity|]);
      [exact (write_reads_own_table_only table (save_faults s) (Some df) d1 d2 Hd)
      |exact Hd].
  - intros [= <- <-] [= <- <-]. now split.
Qed.

(** X16. The sources do not interfere.  What a run leaves in a source's
    table is decided by that source alone (its import, its scraper, the
    faults of its write) and by what the table held before; the other
    source and the other tables have no influence on it. *)
Theorem sources_do_not_interfere w1 w2 d1 d2 out1 out2 :
  main w1 d1 = Returns out1 ->
  main w2 d2 = Returns out2 ->
  (simplify w1 = simplify w2 -> d1 !! github_jobs = d2 !! github_jobs ->
   snd out1 !! github_jobs = snd out2 !! github_jobs)
  /\ (zapply w1 = zapply w2 -> d1 !! zapply_jobs = d2 !! zapply_jobs ->
      snd out1 !! zapply_jobs = snd out2 !! zapply_jobs).
Proof.
  intros H1 H2.
  destruct (main_returns w1 d1) as (a1 & m1 & b1 & e1 & Ea1 & Eb1 & E1).
  destruct (main_returns w2 d2) as (a2 & m2 & b2 & e2 & Ea2 & Eb2 & E2).
  rewrite E1 in H1. rewrite E2 in H2. inversion H1; inversion H2; subst. simpl.
  destruct (run_source_returns github_jobs (simplify w1) d1) as (? & ? & Xa1 & Oa1 & _).
  destruct (run_source_returns github_jobs (simplify w2) d2) as (? & ? & Xa2 & Oa2 & _).
  destruct (run_source_returns zapply_jobs (zapply w1) m1) as (? & ? & Xb1 & Ob1 & _).
  destruct (run_source_returns zapply_jobs (zapply w2) m2) as (? & ? & Xb2 & Ob2 & _).
  rewrite Xa1 in Ea1. rewrite Xa2 in Ea2. rewrite Xb1 in Eb1. rewrite Xb2 in Eb2.
  inversion Ea1; inversion Ea2; inversion Eb1; inversion Eb2; subst.
  split.
  - intros Hs Hd. rewrite Hs in Xa1.
    rewrite (Ob1 github_jobs tables_differ), (Ob2 github_jobs tables_differ).
    exact (proj2 (run_source_local _ _ _ _ _ _ _ _ Hd Xa1 Xa2)).
  - intros Hs Hd. rewrite Hs in Xb1.
    assert (Hne : zapply_jobs <> github_jobs) by discriminate.
    refine (proj2 (run_source_local _ _ _ _ _ _ _ _ _ Xb1 Xb2)).
    now rewrite (Oa1 zapply_jobs Hne), (Oa2 zapply_jobs Hne).
Qed.

Lemma sources_do_not_interfere_witness :
  exists out1 out2,
    main clean_world ∅ = Returns out1
    /\ main zapply_only_world ∅ = Returns out2
    /\ snd out1 !! zapply_jobs = snd out2 !! zapply_jobs.
Proof.
  eexists. eexists. split; [reflexivity|]. split; [reflexivity|].
  exact (proj2 (sources_do_not_interfere clean_world zapply_only_world ∅ ∅ _ _
                  eq_refl eq_refl) eq_refl eq_refl).
Defined.

(** X17. The exit code agrees with the printed totals: the script exits
    with 1 exactly when the summary counts no successful scraper, which
    is exactly when it reports no job collected; and the count of
    successful scrapers never exceeds the number of sources listed. *)
Theorem exit_code_matches_totals w d results summ d' :
  main w d = Returns (results, summ, d') ->
  (exit_code results = 1 <-> successful summ = 0%nat)
  /\ (exit_code results = 1 <-> total_jobs summ = 0%nat)
  /\ (successful summ <= n_results summ)%nat.
Proof.
  intros H.
  destruct (main_returns w d) as (r1 & d1 & r2 & d2 & E1 & E2 & E).
  rewrite E in H. injection H; intros; subst results summ d'. clear H.
  assert (G : forall r, (get_success r = true <-> (0 < get_jobs r)%nat) ->
                        if get_success r then (0 < get_jobs r)%nat
                        else get_jobs r = 0%nat).
  { intros r [J J']. destruct (get_success r); [now apply J|].
    destruct (get_jobs r); [reflexivity|]. discriminate J'. lia. }
  pose proof (G _ (run_source_jobs _ _ _ _ _ E1)) as J1.
  pose proof (G _ (run_source_jobs _ _ _ _ _ E2)) as J2.
  rewrite exit_code_two. unfold summarize.
  cbn [successful total_jobs n_results List.map List.filter snd length list_sum
       List.fold_right].
  destruct (get_success r1), (get_success r2); cbn [orb length];
    (split; [|split]); try lia;
    split; intros K; try discriminate K; try reflexivity; lia.
Qed.

Lemma exit_code_matches_totals_witness :
  exists results summ d',
    main all_failed_world ∅ = Returns (results, summ, d')
    /\ (exit_code results = 1 <-> total_jobs summ = 0%nat).
Proof.
  eexists. eexists. eexists. split; [reflexivity|].
  exact (proj1 (proj2 (exit_code_matches_totals all_failed_world ∅ _ _ _ eq_refl))).
Defined.

Lemma count_tables_unfold (d : disk) :
  count_tables d
  = match d !! raw_jobs with Some rows => [(raw_jobs, length rows)] | None => [] end
    ++ match d !! github_jobs with Some rows => [(github_jobs, length rows)] | None => [] end
    ++ match d !! zapply_jobs with Some rows => [(zapply_jobs, length rows)] | None => [] end.
Proof.
  unfold count_tables, checked_tables.
  assert (Hcons : forall (f : string -> option (string * nat)) x l,
             omap f (x :: l)
             = match f x with Some y => y :: omap f l | None => omap f l end)
    by reflexivity.
  rewrite !Hcons.
  destruct (d !! raw_jobs), (d !! github_jobs), (d !! zapply_jobs); reflexivity.
Qed.

(** X18. After a run in which both sources are scraped and no database
    call raises, the totals read back from the database match what was
    collected: the table of each source holds as many rows as its
    scraper returned, and the database total is the number of jobs
    collected plus the rows of the [raw_jobs] table, which the run does
    not touch. *)
Theorem clean_run_totals w d df1 df2 results summ d' :
  succeeded (simplify w) df1 ->
  succeeded (zapply w) df2 ->
  save_faults (simplify w) = no_faults ->
  save_faults (zapply w) = no_faults ->
  check_fails w = false ->
  main w d = Returns (results, summ, d') ->
  total_jobs summ = (length df1 + length df2)%nat
  /\ d' = <[zapply_jobs := df2]> (<[github_jobs := df1]> d)
  /\ exists counts n,
       database_totals summ = Some (counts, n)
       /\ In (github_jobs, length df1) counts
       /\ In (zapply_jobs, length df2) counts
       /\ n = (length (table_rows d raw_jobs) + total_jobs summ)%nat.
Proof.
  intros S1 S2 F1 F2 Hc H.
  destruct (main_returns w d) as (r1 & d1 & r2 & d2 & E1 & E2 & E).
  rewrite E in H. injection H; intros; subst results summ d'. clear H.
  destruct (run_source_succeeded github_jobs _ d _ S1) as (X1 & _ & J1 & _).
  destruct (run_source_succeeded zapply_jobs _ d1 _ S2) as (X2 & _ & J2 & _).
  assert (Hd1 : d1 = snd (save_to_database github_jobs (save_faults (simplify w))
                            (Some df1) d)) by congruence.
  assert (Hr1 : r1 = run_scraper (call (simplify w)) (elapsed (simplify w)))
    by congruence.
  rewrite F1, (save_to_database_no_faults github_jobs df1 d (proj2 (proj2 S1))) in Hd1.
  cbn [snd] in Hd1.
  assert (Hd2 : d2 = snd (save_to_database zapply_jobs (save_faults (zapply w))
                            (Some df2) d1)) by congruence.
  assert (Hr2 : r2 = run_scraper (call (zapply w)) (elapsed (zapply w)))
    by congruence.
  rewrite F2, (save_to_database_no_faults zapply_jobs df2 d1 (proj2 (proj2 S2))) in Hd2.
  cbn [snd] in Hd2. subst d1 d2 r1 r2. clear E1 E2 X1 X2.
  unfold summarize. cbn [total_jobs database_totals List.map snd list_sum List.fold_right].
  rewrite Hc, J1, J2, count_tables_unfold.
  rewrite lookup_insert_eq.
  rewrite (lookup_insert_ne _ zapply_jobs github_jobs) by discriminate.
  rewrite lookup_insert_eq.
  rewrite (lookup_insert_ne _ zapply_jobs raw_jobs) by discriminate.
  rewrite (lookup_insert_ne _ github_jobs raw_jobs) by discriminate.
  split; [lia|]. split; [reflexivity|].
  eexists. eexists. split; [reflexivity|].
  unfold table_rows.
  destruct (d !! raw_jobs) as [rows|];
    cbn [app List.map snd list_sum List.fold_right default length];
    repeat split; try (simpl; tauto); lia.
Qed.

Lemma clean_run_totals_witness :
  exists results summ d',
    main clean_world ∅ = Returns (results, summ, d')
    /\ total_jobs summ = (length (default [] google_frame) + length zapply_frame)%nat.
Proof.
  destruct (main_returns clean_world ∅) as (r1 & d1 & r2 & d2 & _ & _ & E).
  eexists. eexists. eexists. split; [exact E|].
  refine (proj1 (clean_run_totals clean_world ∅ (default [] google_frame) zapply_frame
                   _ _ _ _ _ eq_refl eq_refl eq_refl E)).
  - split; [reflexivity|]. split; [vm_compute; reflexivity|vm_compute; discriminate].
  - split; [reflexivity|]. split; [reflexivity|vm_compute; discriminate].
Defined.

End OrchestratorFacts.

(* ================================================================== *)
(** ** Combining the JobSpy searches *)

Module RealJobsFacts.
Import RealJobs Samples.

Section Frames.
Context {row : Type}.
Variable job_url : row -> option string.
Implicit Types (rows : list row) (seen : list (option string)).

Lemma drop_from_keys seen rows :
  NoDup (job_url <$> drop_duplicates_from job_url seen rows)
  /\ forall r, r ∈ drop_duplicates_from job_url seen rows -> job_url r ∉ seen.
Proof.
  revert seen. induction rows as [|r rest IH]; intros seen; simpl.
  - split; [constructor|]. intros r Hr. inversion Hr.
  - case_bool_decide as Hseen.
    + apply IH.
    + destruct (IH (job_url r :: seen)) as [Hnd Hns]. split.
      * rewrite fmap_cons. constructor; [|exact Hnd].
        intros Hin. apply list_elem_of_fmap in Hin as (r' & Hk & Hr').
        apply (Hns r' Hr'). rewrite <- Hk. now left.
      * intros r' Hr'. apply elem_of_cons in Hr' as [->|Hr']; [exact Hseen|].
        intros Hin. apply (Hns r' Hr'). now right.
Qed.

Lemma drop_from_sublist seen rows :
  drop_duplicates_from job_url seen rows `sublist_of` rows.
Proof.
  revert seen. induction rows as [|r rest IH]; intros seen; simpl; [constructor|].
  case_bool_decide; [apply sublist_cons, IH|apply sublist_skip, IH].
Qed.

Lemma drop_from_covers seen rows r :
  r ∈ rows ->
  job_url r ∈ seen
  \/ exists r', r' ∈ drop_duplicates_from job_url seen rows /\ job_url r' = job_url r.
Proof.
  revert seen. induction rows as [|x rest IH]; intros seen Hr; [inversion Hr|].
  simpl. apply elem_of_cons in Hr as [->|Hr].
  - case_bool_decide as Hseen; [now left|].
    right. exists x. split; [now left|reflexivity].
  - case_bool_decide as Hseen; [exact (IH seen Hr)|].
    destruct (IH (job_url x :: seen) Hr) as [Hin|(r' & Hr' & Hk)].
    + apply elem_of_cons in Hin as [Hk|Hin]; [|now left].
      right. exists x. split; [now left|now symmetry].
    + right. exists r'. split; [now right|exact Hk].
Qed.

Lemma drop_from_first seen rows r :
  r ∈ drop_duplicates_from job_url seen rows ->
  exists l1 l2, rows = l1 ++ r :: l2 /\ job_url r ∉ (job_url <$> l1).
Proof.
  revert seen. induction rows as [|x rest IH]; intros seen Hr; [inversion Hr|].
  simpl in Hr. case_bool_decide as Hseen.
  - pose proof (proj2 (drop_from_keys seen rest) r Hr) as Hns.
    destruct (IH seen Hr) as (l1 & l2 & -> & Hfirst).
    exists (x :: l1), l2. split; [reflexivity|].
    rewrite fmap_cons. intros Hin. apply elem_of_cons in Hin as [Hk|Hin];
      [|exact (Hfirst Hin)].
    apply Hns. now rewrite Hk.
  - apply elem_of_cons in Hr as [->|Hr].
    + exists [], rest. split; [reflexivity|]. intros Hin. inversion Hin.
    + pose proof (proj2 (drop_from_keys (job_url x :: seen) rest) r Hr) as Hns.
      destruct (IH _ Hr) as (l1 & l2 & -> & Hfirst).
      exists (x :: l1), l2. split; [reflexivity|].
      rewrite fmap_cons. intros Hin. apply elem_of_cons in Hin as [Hk|Hin];
        [|exact (Hfirst Hin)].
      apply Hns. rewrite Hk. now left.
Qed.

(** X19. Removing duplicates by [job_url] keeps, in their order, exactly
    the first row of every URL: no two rows kept share a URL, every URL
    of the input is still there, the rows kept are a sublist of the
    input, and no row before a kept row has its URL. *)
Theorem drop_duplicates_keeps_first rows :
  NoDup (job_url <$> drop_duplicates job_url rows)
  /\ drop_duplicates job_url rows `sublist_of` rows
  /\ (forall r, r ∈ rows ->
        exists r', r' ∈ drop_duplicates job_url rows /\ job_url r' = job_url r)
  /\ (forall r, r ∈ drop_duplicates job_url rows ->
        exists l1 l2, rows = l1 ++ r :: l2 /\ job_url r ∉ (job_url <$> l1)).
Proof.
  unfold drop_duplicates. split; [apply drop_from_keys|].
  split; [apply drop_from_sublist|]. split.
  - intros r Hr. destruct (drop_from_covers [] rows r Hr) as [Hin|H]; [|exact H].
    inversion Hin.
  - intros r. apply drop_from_first.
Qed.

Lemma all_jobs_nonempty (searches : list (option (list row))) :
  List.Forall (fun frame => frame <> []) (all_jobs searches).
Proof.
  unfold all_jobs. induction searches as [|[[|r rs]|] rest IH]; simpl;
    try exact IH; try constructor; [discriminate|exact IH].
Qed.

(** X20. [main] hands a batch to the writer only when some search
    returned rows; that batch is never empty, and the number printed as
    duplicates removed is the number of rows collected minus the number
    of rows kept. *)
Theorem main_batch_counts (searches : list (option (list row))) :
  (main_batch job_url searches = None <-> all_jobs searches = [])
  /\ (forall unique removed,
        main_batch job_url searches = Some (unique, removed) ->
        unique <> []
        /\ (length unique + removed)%nat = length (List.concat (all_jobs searches))
        /\ unique = drop_duplicates job_url (List.concat (all_jobs searches))).
Proof.
  unfold main_batch. pose proof (all_jobs_nonempty searches) as Hne.
  destruct (all_jobs searches) as [|frame frames]; split.
  - tauto.
  - discriminate.
  - split; discriminate.
  - intros unique removed H.
    set (combined := List.concat (frame :: frames)) in *.
    assert (Hu : unique = drop_duplicates job_url combined) by congruence.
    assert (Hr : removed = (length combined - length (drop_duplicates job_url combined))%nat)
      by congruence.
    split; [|split; [|exact Hu]].
    + rewrite Hu. subst combined. inversion Hne as [|? ? Hf _]; subst.
      destruct frame as [|r rs]; [contradiction|]. simpl. discriminate.
    + pose proof (sublist_length _ _ (drop_from_sublist [] combined)) as Hl.
      rewrite Hu, Hr. unfold drop_duplicates. lia.
Qed.

End Frames.

Lemma main_batch_counts_witness :
  exists unique removed,
    main_batch url_of searched = Some (unique, removed)
    /\ unique <> [] /\ (length unique + removed)%nat = 6%nat.
Proof.
  eexists. eexists. split; [reflexivity|].
  destruct (proj2 (main_batch_counts url_of searched) _ _ eq_refl) as (H1 & H2 & _).
  split; [exact H1|exact H2].
Defined.

End RealJobsFacts.
